(** * Pharmacy management dashboard: the transaction core

  A shallow embedding of the point-of-sale page
  ([frontend/app/(dashboard)/pos/page.tsx]) and of the purchase-order page
  ([frontend/app/(dashboard)/purchases/page.tsx]).

  Conventions.
  - A JavaScript [number] that carries money or a quantity is an IEEE 754
    binary64 value: the kernel's [float], with [+ - * /] of [PrimFloat].
  - Database identifiers ([id], [medicine_id], [purchaseId]) are integers;
    [===] on them is [Z.eqb].
  - A React state cell [const [x, setX] = useState(..)] is a field [x] of the
    page's [State] record and [setX] is the function that replaces it.
  - An [async] handler is cut at its [await]: the part that runs
    synchronously up to the request, and the part that runs when the request
    settles.  Both return the new state and the effects they issue, in
    order. *)

From Stdlib Require Import ZArith List Bool Floats.
From stdpp Require Import base option list strings gmap.

Import ListNotations.

#[local] Open Scope Z_scope.
#[local] Open Scope string_scope.

(** ** Requests and their outcome *)

Module Http.

(** What an awaited [api] call settles to: the response body, or an error
    whose [response?.data?.detail] may be missing. *)
Inductive Response (A : Type) : Type :=
| Resolved (data : A)
| Rejected (detail : option string).
#[global] Arguments Resolved {A} data.
#[global] Arguments Rejected {A} detail.

(** [error.response?.data?.detail || fallback]: a missing or empty detail
    is falsy. *)
Definition detail_or (detail : option string) (fallback : string) : string :=
  match detail with
  | Some d => if String.eqb d "" then fallback else d
  | None => fallback
  end.

End Http.

(** ** JavaScript numbers *)

Module Number.

#[local] Open Scope float_scope.

(** Truthiness of a number: [NaN], [+0] and [-0] are falsy. *)
Definition truthy (x : float) : bool := negb (is_nan x || is_zero x).

(** [x || y] on numbers. *)
Definition or_else (x y : float) : float := if truthy x then x else y.

Definition is_neg_zero (x : float) : bool :=
  match classify x with NZero => true | _ => false end.

(** [Math.max(a, b)]: [NaN] if either argument is, and [+0] above [-0]. *)
Definition Math_max (a b : float) : float :=
  if is_nan a || is_nan b then nan
  else if a <? b then b
  else if (a =? b) && is_neg_zero a then b
  else a.

End Number.

(** ** types/index.ts *)

Module Medicine.

Inductive Status : Set := active | inactive | discontinued.

Record t : Type := mk {
  id : Z;
  name : string;
  medicine_id : string;
  unit_price : float;
  stock_quantity : float;
  category_id : option Z;
  status : Status
}.

End Medicine.

(** ** The point-of-sale page *)

Module POS.

#[local] Open Scope float_scope.

(** [interface CartItem extends SaleItem]. *)
Record CartItem : Type := mkCartItem {
  medicine_id : Z;
  medicine : Medicine.t;
  quantity : float;
  unit_price : float;
  discount_percent : float;
  total_price : float
}.

(** [Partial<CartItem>]: every field optional; [None] is a field the object
    does not have. *)
Module Partial.
Record CartItem : Type := mk {
  medicine_id : option Z;
  medicine : option Medicine.t;
  quantity : option float;
  unit_price : option float;
  discount_percent : option float;
  total_price : option float
}.

Definition empty : CartItem := mk None None None None None None.
(** The object literal [{ quantity: q }] of the two quantity buttons. *)
Definition of_quantity (q : float) : CartItem :=
  mk None None (Some q) None None None.
End Partial.

Inductive PaymentMethod : Set := cash | card | mobile.

Definition TAX_PERCENTAGE : float := 18.

(** The state cells of [POSPage] that the cart and the sale touch.
    [customerId] is [None] for the empty string and [Some n] for the decimal
    text of [n], which is what [customer.id.toString()] stores. *)
Record State : Type := mkState {
  searchQuery : string;
  searchResults : list Medicine.t;
  cart : list CartItem;
  customerId : option Z;
  customerSearch : string;
  paymentMethod : PaymentMethod;
  discount : float;
  processing : bool;
  success : bool;
  receiptNumber : string
}.

Definition initial : State :=
  mkState "" [] [] None "" cash 0 false false "".

Definition setSearchQuery (v : string) (s : State) : State :=
  mkState v (searchResults s) (cart s) (customerId s) (customerSearch s)
    (paymentMethod s) (discount s) (processing s) (success s) (receiptNumber s).
Definition setSearchResults (v : list Medicine.t) (s : State) : State :=
  mkState (searchQuery s) v (cart s) (customerId s) (customerSearch s)
    (paymentMethod s) (discount s) (processing s) (success s) (receiptNumber s).
Definition setCart (v : list CartItem) (s : State) : State :=
  mkState (searchQuery s) (searchResults s) v (customerId s) (customerSearch s)
    (paymentMethod s) (discount s) (processing s) (success s) (receiptNumber s).
Definition setCustomerId (v : option Z) (s : State) : State :=
  mkState (searchQuery s) (searchResults s) (cart s) v (customerSearch s)
    (paymentMethod s) (discount s) (processing s) (success s) (receiptNumber s).
Definition setCustomerSearch (v : string) (s : State) : State :=
  mkState (searchQuery s) (searchResults s) (cart s) (customerId s) v
    (paymentMethod s) (discount s) (processing s) (success s) (receiptNumber s).
Definition setPaymentMethod (v : PaymentMethod) (s : State) : State :=
  mkState (searchQuery s) (searchResults s) (cart s) (customerId s)
    (customerSearch s) v (discount s) (processing s) (success s) (receiptNumber s).
Definition setDiscount (v : float) (s : State) : State :=
  mkState (searchQuery s) (searchResults s) (cart s) (customerId s)
    (customerSearch s) (paymentMethod s) v (processing s) (success s)
    (receiptNumber s).
Definition setProcessing (v : bool) (s : State) : State :=
  mkState (searchQuery s) (searchResults s) (cart s) (customerId s)
    (customerSearch s) (paymentMethod s) (discount s) v (success s)
    (receiptNumber s).
Definition setSuccess (v : bool) (s : State) : State :=
  mkState (searchQuery s) (searchResults s) (cart s) (customerId s)
    (customerSearch s) (paymentMethod s) (discount s) (processing s) v
    (receiptNumber s).
Definition setReceiptNumber (v : string) (s : State) : State :=
  mkState (searchQuery s) (searchResults s) (cart s) (customerId s)
    (customerSearch s) (paymentMethod s) (discount s) (processing s)
    (success s) v.

(** *** Calculate totals (re-evaluated on every render) *)

Definition tax : float := TAX_PERCENTAGE.

Definition subtotal (s : State) : float :=
  fold_left (fun sum item => sum + total_price item) (cart s) 0.
Definition discountAmount (s : State) : float :=
  (subtotal s * discount s) / 100.
Definition taxAmount (s : State) : float :=
  (subtotal s * tax) / 100.
Definition grandTotal (s : State) : float :=
  subtotal s - discountAmount s + taxAmount s.

(** *** Cart operations *)

Definition with_total_price (v : float) (item : CartItem) : CartItem :=
  mkCartItem (medicine_id item) (medicine item) (quantity item)
    (unit_price item) (discount_percent item) v.

Definition addToCart (medicine : Medicine.t) (s : State) : State :=
  let existingItem :=
    find (fun item => medicine_id item =? Medicine.id medicine)%Z (cart s) in
  let s' :=
    match existingItem with
    | Some _ =>
        setCart
          (map (fun item =>
                  if (medicine_id item =? Medicine.id medicine)%Z
                  then mkCartItem (medicine_id item) (POS.medicine item)
                         (quantity item + 1) (unit_price item)
                         (discount_percent item)
                         ((quantity item + 1) * unit_price item
                          * (1 - discount_percent item / 100))
                  else item)
             (cart s)) s
    | None =>
        let newItem :=
          mkCartItem (Medicine.id medicine) medicine 1
            (Medicine.unit_price medicine) 0 (Medicine.unit_price medicine) in
        setCart (cart s ++ [newItem]) s
    end in
  setSearchResults [] (setSearchQuery "" s').

(** [{ ...item, ...updates }]. *)
Definition spread (item : CartItem) (updates : Partial.CartItem) : CartItem :=
  mkCartItem
    (default (medicine_id item) (Partial.medicine_id updates))
    (default (medicine item) (Partial.medicine updates))
    (default (quantity item) (Partial.quantity updates))
    (default (unit_price item) (Partial.unit_price updates))
    (default (discount_percent item) (Partial.discount_percent updates))
    (default (total_price item) (Partial.total_price updates)).

(** [v !== undefined]. *)
Definition defined {A : Type} (v : option A) : bool :=
  match v with Some _ => true | None => false end.

Definition updateCartItem (medicineId : Z) (updates : Partial.CartItem)
    (s : State) : State :=
  setCart
    (map (fun item =>
            if (medicine_id item =? medicineId)%Z then
              let updated := spread item updates in
              if defined (Partial.quantity updates)
                 || defined (Partial.discount_percent updates)
              then with_total_price
                     (quantity updated * unit_price updated
                      * (1 - discount_percent updated / 100))
                     updated
              else updated
            else item)
       (cart s)) s.

Definition removeFromCart (medicineId : Z) (s : State) : State :=
  setCart
    (List.filter (fun item => negb (medicine_id item =? medicineId)%Z) (cart s))
    s.

Definition clearCart (s : State) : State :=
  setSuccess false
    (setPaymentMethod cash
       (setCustomerSearch ""
          (setCustomerId None (setDiscount 0 (setCart [] s))))).

(** *** The controls of a cart line and of the order summary *)

(** The minus button of a line. *)
Definition clickMinus (item : CartItem) (s : State) : State :=
  updateCartItem (medicine_id item)
    (Partial.of_quantity (Number.Math_max 1 (quantity item - 1))) s.

(** The plus button of a line. *)
Definition clickPlus (item : CartItem) (s : State) : State :=
  updateCartItem (medicine_id item) (Partial.of_quantity (quantity item + 1)) s.

(** [onChange] of the discount field; [parsed] is
    [parseFloat(e.target.value)]. *)
Definition changeDiscount (parsed : float) (s : State) : State :=
  setDiscount (Number.or_else parsed 0) s.

(** *** Process sale *)

Record SaleItem : Type := mkSaleItem {
  item_medicine_id : Z;
  item_quantity : float;
  item_discount_percent : float
}.

Record SaleData : Type := mkSaleData {
  customer_id : option Z;
  items : list SaleItem;
  discount_amount : float;
  tax_amount : float;
  payment_method : PaymentMethod;
  notes : string
}.

Inductive Effect : Type :=
| Alert (message : string)
| PostProcessSale (saleData : SaleData)
| SetTimeoutClearCart (delay : Z).

Definition saleData (s : State) : SaleData :=
  mkSaleData (customerId s)
    (map (fun item =>
            mkSaleItem (medicine_id item) (quantity item) (discount_percent item))
       (cart s))
    (discountAmount s) (taxAmount s) (paymentMethod s) "".

Definition is_empty {A : Type} (l : list A) : bool :=
  match l with [] => true | _ :: _ => false end.

(** [processSale] up to [await posAPI.processSale(saleData)]. *)
Definition processSale (s : State) : State * list Effect :=
  if is_empty (cart s) then (s, [Alert "Cart is empty!"])
  else (setProcessing true s, [PostProcessSale (saleData s)]).

(** [processSale] from the point where the request settles; the response
    body is reduced to its [receipt_number]. *)
Definition processSale_settled (r : Http.Response string) (s : State)
    : State * list Effect :=
  match r with
  | Http.Resolved receipt_number =>
      (setProcessing false (setSuccess true (setReceiptNumber receipt_number s)),
       [SetTimeoutClearCart 5000])
  | Http.Rejected detail =>
      (setProcessing false s,
       [Alert (Http.detail_or detail "Sale processing failed")])
  end.

(** [disabled={processing || cart.length === 0}] on "Complete Sale". *)
Definition completeSaleDisabled (s : State) : bool :=
  processing s || is_empty (cart s).

(** *** Sequences of cart operations *)

Inductive Action : Type :=
| AddToCart (medicine : Medicine.t)
| UpdateCartItem (medicineId : Z) (updates : Partial.CartItem)
| RemoveFromCart (medicineId : Z)
| ClearCart
| ChangeDiscount (parsed : float).

Definition act (a : Action) (s : State) : State :=
  match a with
  | AddToCart medicine => addToCart medicine s
  | UpdateCartItem medicineId updates => updateCartItem medicineId updates s
  | RemoveFromCart medicineId => removeFromCart medicineId s
  | ClearCart => clearCart s
  | ChangeDiscount parsed => changeDiscount parsed s
  end.

(** The states the page reaches from its first render through operations
    that satisfy [allowed]. *)
Inductive reachable (allowed : Action -> Prop) : State -> Prop :=
| reachable_initial : reachable allowed initial
| reachable_act a s :
    allowed a -> reachable allowed s -> reachable allowed (act a s).

Definition any_action (a : Action) : Prop := True.

(** An operation that cannot relabel a line: an update that carries no
    [medicine_id] of its own.  Both quantity buttons are of this kind. *)
Definition keeps_identity (a : Action) : Prop :=
  match a with
  | UpdateCartItem _ updates => Partial.medicine_id updates = None
  | _ => True
  end.

(** *** The page as an event loop

    The handlers run one at a time, each against the state the previous one
    left (React renders between two discrete events).  [pending] counts the
    sale requests that were sent and have not settled. *)

Record Page : Type := mkPage {
  ui : State;
  pending : nat
}.

Inductive Event : Type :=
| ClickCompleteSale
| SaleSettled (r : Http.Response string)
| Cart (a : Action).

Definition posts (effects : list Effect) : nat :=
  length (List.filter
            (fun e => match e with PostProcessSale _ => true | _ => false end)
            effects).

Definition handle (e : Event) (p : Page) : Page :=
  match e with
  | ClickCompleteSale =>
      if completeSaleDisabled (ui p) then p
      else let '(s, effects) := processSale (ui p) in
           mkPage s (pending p + posts effects)
  | SaleSettled r =>
      match pending p with
      | O => p
      | S n => mkPage (fst (processSale_settled r (ui p))) n
      end
  | Cart a => mkPage (act a (ui p)) (pending p)
  end.

Definition run (events : list Event) (p : Page) : Page :=
  fold_left (fun p e => handle e p) events p.

Definition first_render : Page := mkPage initial 0.

(** While a request is out the page is [processing], and only then. *)
Definition in_step (p : Page) : Prop :=
  pending p = if processing (ui p) then 1%nat else 0%nat.

(** *** The price of a line, as the specification writes it:
    [lineTotal = quantity × unitPrice × (1 − discountPercent/100)]. *)
Definition line_price (q unit_price discount_percent : float) : float :=
  q * unit_price * (1 - discount_percent / 100).

(** *** The sum of the lines, as the specification writes it

    [line_total] adds the prices one line after the other:
    the sum of no line is [0], and a further line adds its [total_price] to
    the sum of the lines before it. *)
Fixpoint sum_backwards (prices : list float) : float :=
  match prices with
  | [] => 0
  | p :: earlier => sum_backwards earlier + p
  end.

Definition line_total (lines : list CartItem) : float :=
  sum_backwards (rev (map total_price lines)).

End POS.

(** ** The purchase-order page *)

Module Purchases.

Inductive OrderStatus : Set := pending | ordered | received | cancelled | partial.

Definition status_eqb (a b : OrderStatus) : bool :=
  match a, b with
  | pending, pending | ordered, ordered | received, received
  | cancelled, cancelled | partial, partial => true
  | _, _ => false
  end.

(** An element of [Purchase.items]. *)
Record PurchaseItem : Type := mkItem {
  item_id : Z;
  medicine_id : Z;
  quantity : Z;
  unit_cost : float;
  received_quantity : option Z
}.

Record Purchase : Type := mkPurchase {
  id : Z;
  purchase_number : string;
  supplier_id : Z;
  status : OrderStatus;
  total_amount : float;
  items : list PurchaseItem
}.

(** The state cells of [PurchasesPage] that receiving and cancelling touch.
    [receiveQuantities] is a [Record<string, number>] whose keys are the
    decimal texts of item ids; it is keyed here by the id itself. *)
Record State : Type := mkState {
  purchases : list Purchase;
  showReceiveModal : bool;
  showDetailModal : bool;
  selectedPurchase : option Purchase;
  receiveQuantities : gmap Z Z
}.

Definition setPurchases (v : list Purchase) (s : State) : State :=
  mkState v (showReceiveModal s) (showDetailModal s) (selectedPurchase s)
    (receiveQuantities s).
Definition setShowReceiveModal (v : bool) (s : State) : State :=
  mkState (purchases s) v (showDetailModal s) (selectedPurchase s)
    (receiveQuantities s).
Definition setShowDetailModal (v : bool) (s : State) : State :=
  mkState (purchases s) (showReceiveModal s) v (selectedPurchase s)
    (receiveQuantities s).
Definition setSelectedPurchase (v : option Purchase) (s : State) : State :=
  mkState (purchases s) (showReceiveModal s) (showDetailModal s) v
    (receiveQuantities s).
Definition setReceiveQuantities (v : gmap Z Z) (s : State) : State :=
  mkState (purchases s) (showReceiveModal s) (showDetailModal s)
    (selectedPurchase s) v.

Inductive Effect : Type :=
| Alert (message : string)
| PutReceive (purchaseId : Z) (received_quantities : gmap Z Z)
| PutStatus (purchaseId : Z) (status : OrderStatus)
| GetPurchases.

Definition viewPurchaseDetails (purchase : Purchase) (s : State) : State :=
  setShowDetailModal true (setSelectedPurchase (Some purchase) s).

Definition prepareReceivePurchase (purchase : Purchase) (s : State) : State :=
  let quantities :=
    fold_left (fun q item => <[item_id item := quantity item]> q)
      (items purchase) (∅ : gmap Z Z) in
  setShowReceiveModal true
    (setReceiveQuantities quantities (setSelectedPurchase (Some purchase) s)).

(** [onChange] of an item's "Received Quantity" field; [parsed] is
    [parseInt(e.target.value)], [None] when that is [NaN].  The field's
    [min] and [max] attributes take no part in it. *)
Definition changeReceived (item : PurchaseItem) (parsed : option Z) (s : State)
    : State :=
  let newQuantities := receiveQuantities s in
  setReceiveQuantities (<[item_id item := default 0 parsed]> newQuantities) s.

(** The [min="0"] and [max={item.quantity}] attributes the field declares. *)
Definition receivedFieldMin : Z := 0.
Definition receivedFieldMax (item : PurchaseItem) : Z := quantity item.

(** [fetchPurchases] starts with the request; its answer replaces the list. *)
Definition fetchPurchases_settled (r : Http.Response (list Purchase)) (s : State)
    : State :=
  match r with
  | Http.Resolved data => setPurchases data s
  | Http.Rejected _ => s
  end.

(** [handleReceivePurchase] up to [await purchasesAPI.receivePurchase(..)]. *)
Definition handleReceivePurchase (s : State) : State * list Effect :=
  match selectedPurchase s with
  | None => (s, [])
  | Some selected => (s, [PutReceive (id selected) (receiveQuantities s)])
  end.

(** [handleReceivePurchase] from the point where the request settles. *)
Definition handleReceivePurchase_settled (r : Http.Response unit) (s : State)
    : State * list Effect :=
  match r with
  | Http.Resolved _ =>
      (setShowReceiveModal false s,
       [GetPurchases; Alert "Purchase order received successfully!"])
  | Http.Rejected detail =>
      (s, [Alert (Http.detail_or detail "Failed to receive purchase order")])
  end.

(** [handleUpdateStatus] up to [await purchasesAPI.updatePurchaseStatus(..)];
    [confirmed] is the answer to its [confirm(..)] dialog. *)
Definition handleUpdateStatus (purchaseId : Z) (status : OrderStatus)
    (confirmed : bool) (s : State) : State * list Effect :=
  if negb confirmed then (s, [])
  else (s, [PutStatus purchaseId status]).

(** [handleUpdateStatus] from the point where the request settles. *)
Definition handleUpdateStatus_settled (r : Http.Response unit) (s : State)
    : State * list Effect :=
  match r with
  | Http.Resolved _ =>
      (s, [GetPurchases; Alert "Purchase status updated successfully!"])
  | Http.Rejected detail =>
      (s, [Alert (Http.detail_or detail "Failed to update purchase status")])
  end.

(** *** The controls rendered for an order *)

Inductive Control : Set := ViewDetails | ReceiveOrder | CancelOrder.

(** The action cell of a table row. *)
Definition rowControls (purchase : Purchase) : list Control :=
  ViewDetails
  :: (if status_eqb (status purchase) pending
         || status_eqb (status purchase) ordered
      then [ReceiveOrder; CancelOrder]
      else []).

(** The controls of the details modal that depend on the status (it has no
    [ViewDetails]; "Print" and "Close" are always there). *)
Definition detailControls (selected : Purchase) : list Control :=
  (if status_eqb (status selected) pending
      || status_eqb (status selected) ordered
   then [ReceiveOrder] else [])
  ++ (if status_eqb (status selected) pending then [CancelOrder] else []).

(** [onClick] of a row control. *)
Definition rowClick (c : Control) (purchase : Purchase) (confirmed : bool)
    (s : State) : State * list Effect :=
  match c with
  | ViewDetails => (viewPurchaseDetails purchase s, [])
  | ReceiveOrder => (prepareReceivePurchase purchase s, [])
  | CancelOrder => handleUpdateStatus (id purchase) cancelled confirmed s
  end.

(** [onClick] of a control of the details modal.  Cancelling asks twice:
    [asked] answers the modal's own [confirm], [confirmed] the one inside
    [handleUpdateStatus]. *)
Definition detailClick (c : Control) (selected : Purchase)
    (asked confirmed : bool) (s : State) : State * list Effect :=
  match c with
  | ViewDetails => (s, [])
  | ReceiveOrder =>
      (prepareReceivePurchase selected (setShowDetailModal false s), [])
  | CancelOrder =>
      if asked then
        let '(s', effects) :=
          handleUpdateStatus (id selected) cancelled confirmed s in
        (setShowDetailModal false s', effects)
      else (s, [])
  end.

(** *** What the specification asks of a receive action *)

(** [0 ≤ receivedQuantities[item] ≤ item.quantity] for every item, a missing
    entry standing for the ordered quantity. *)
Definition in_range (purchase : Purchase) (rq : gmap Z Z) : bool :=
  forallb (fun item =>
             let r := default (quantity item) (rq !! item_id item) in
             (0 <=? r)%Z && (r <=? quantity item)%Z)
    (items purchase).

Definition all_zero (purchase : Purchase) (rq : gmap Z Z) : bool :=
  forallb (fun item => (default (quantity item) (rq !! item_id item) =? 0)%Z)
    (items purchase).

End Purchases.

(** ** Sample data *)

Module Sample.

Import POS.
#[local] Open Scope float_scope.

Definition paracetamol : Medicine.t :=
  Medicine.mk 1 "Paracetamol" "MED-001" 100 40 None Medicine.active.
Definition ibuprofen : Medicine.t :=
  Medicine.mk 2 "Ibuprofen" "MED-002" 50 12 None Medicine.active.

(** One line of paracetamol. *)
Definition one_line : State := addToCart paracetamol initial.
(** A line of paracetamol, then a line of ibuprofen. *)
Definition two_lines : State := addToCart ibuprofen one_line.

Definition relabel_as_ibuprofen : Partial.CartItem :=
  Partial.mk (Some 2%Z) None None None None None.
Definition price_override : Partial.CartItem :=
  Partial.mk None None None None None (Some 5).
Definition quantity_zero : Partial.CartItem := Partial.of_quantity 0.
Definition discount_150 : Partial.CartItem :=
  Partial.mk None None None None (Some 150) None.

(** Scenario A: 3 of paracetamol at 100, 1 of ibuprofen at 50 with a line
    discount of 10, and a cart discount of 5. *)
Definition scenario_a : State :=
  changeDiscount 5
    (updateCartItem 2 (Partial.mk None None None None (Some 10) None)
       (clickPlus (mkCartItem 1 paracetamol 2 100 0 200)
          (addToCart paracetamol two_lines))).

(** The order of scenario B: 10 of one item and 5 of another. *)
Definition item1 : Purchases.PurchaseItem := Purchases.mkItem 1 1 10 4 None.
Definition item2 : Purchases.PurchaseItem := Purchases.mkItem 2 2 5 9 None.
Definition order_b : Purchases.Purchase :=
  Purchases.mkPurchase 7 "PO-0007" 3 Purchases.pending 85 [item1; item2].
Definition order_done : Purchases.Purchase :=
  Purchases.mkPurchase 8 "PO-0008" 3 Purchases.received 85 [item1; item2].

Definition listing : Purchases.State :=
  Purchases.mkState [order_b; order_done] false false None ∅.

(** The receive modal opened on [order_b], with the two fields set to [r1]
    and [r2]. *)
Definition receiving (r1 r2 : Z) : Purchases.State :=
  Purchases.changeReceived item2 (Some r2)
    (Purchases.changeReceived item1 (Some r1)
       (Purchases.prepareReceivePurchase order_b listing)).

End Sample.

(** ** lib/auth.ts and the interceptors of lib/api.ts *)

Module Auth.

(** [localStorage], or [None] where [typeof window] is ['undefined']. *)
Abbreviation Window := (option (gmap string string)).

Definition setAuthToken (token : string) (window : Window) : Window :=
  match window with
  | Some localStorage => Some (<["access_token" := token]> localStorage)
  | None => None
  end.

Definition getToken (window : Window) : option string :=
  match window with
  | Some localStorage => localStorage !! "access_token"
  | None => None
  end.

Definition clearAuth (window : Window) : Window :=
  match window with
  | Some localStorage => Some (delete "user" (delete "access_token" localStorage))
  | None => None
  end.

(** Truthiness of a [string | null]: [null] and the empty string are falsy. *)
Definition truthy (v : option string) : bool :=
  match v with
  | Some text => negb (String.eqb text "")
  | None => false
  end.

(** [!!getToken()]. *)
Definition isAuthenticated (window : Window) : bool := truthy (getToken window).

(** The request interceptor, on the headers of the request. *)
Definition onRequest (window : Window) (headers : gmap string string)
    : gmap string string :=
  match window with
  | Some localStorage =>
      let token := localStorage !! "access_token" in
      if truthy token
      then <["Authorization" := String.append "Bearer " (default "" token)]> headers
      else headers
  | None => headers
  end.

(** The response interceptor on an error whose [response?.status] is
    [status]: the storage it leaves and the address it navigates to, if any.
    The error is rejected again in every case. *)
Definition onResponseError (status : option Z) (window : Window)
    : Window * option string :=
  match status with
  | Some 401 =>
      match window with
      | Some localStorage =>
          (Some (delete "user" (delete "access_token" localStorage)),
           Some "/login")
      | None => (window, None)
      end
  | _ => (window, None)
  end.

End Auth.

(** ** The length of a text

    A [string] holds a text in UTF-8.  The [length] of a JavaScript string
    counts UTF-16 code units: one for each character of up to three bytes,
    two for each character of four bytes. *)

Module Text.

Definition code_units (c : Ascii.ascii) : nat :=
  let n := Ascii.nat_of_ascii c in
  if (n <? 128)%nat then 1%nat          (* a one-byte character *)
  else if (n <? 192)%nat then 0%nat     (* a continuation byte *)
  else if (n <? 240)%nat then 1%nat     (* the lead of two or three bytes *)
  else 2%nat.                           (* the lead of four bytes *)

Fixpoint length (text : string) : nat :=
  match text with
  | EmptyString => 0%nat
  | String c rest => (code_units c + length rest)%nat
  end.

End Text.

(** ** The point-of-sale page: searches and the customer field *)

Module Customer.

(** The fields the page reads of a customer search result. *)
Record t : Type := mk {
  id : Z;
  name : string;
  phone : string;
  customer_id : string;
  loyalty_points : float
}.

End Customer.

Module POSSearch.

#[local] Open Scope list_scope.

(** [POSPage] with the two state cells [POS.State] leaves out. *)
Record View : Type := mkView {
  page : POS.State;
  loading : bool;
  customerSearchResults : list Customer.t
}.

Definition onPage (f : POS.State -> POS.State) (v : View) : View :=
  mkView (f (page v)) (loading v) (customerSearchResults v).
Definition setLoading (b : bool) (v : View) : View :=
  mkView (page v) b (customerSearchResults v).
Definition setCustomerSearchResults (l : list Customer.t) (v : View) : View :=
  mkView (page v) (loading v) l.

Inductive Effect : Type :=
| GetSearchMedicine (query : string)
| GetSearchCustomer (query : string)
| ConsoleError (message : string).

(** [searchMedicines] up to [await posAPI.searchMedicine(query)].
    [query.length] is [Text.length query]. *)
Definition searchMedicines (query : string) (v : View) : View * list Effect :=
  if (Text.length query <? 2)%nat
  then (onPage (POS.setSearchResults []) v, [])
  else (setLoading true v, [GetSearchMedicine query]).


(** [searchCustomers] up to [await posAPI.searchCustomer(query)]. *)
Definition searchCustomers (query : string) (v : View) : View * list Effect :=
  if (Text.length query <? 2)%nat
  then (setCustomerSearchResults [] v, [])
  else (v, [GetSearchCustomer query]).

Definition searchCustomers_settled (r : Http.Response (list Customer.t))
    (v : View) : View * list Effect :=
  match r with
  | Http.Resolved data => (setCustomerSearchResults data v, [])
  | Http.Rejected _ =>
      (setCustomerSearchResults [] v, [ConsoleError "Customer search failed:"])
  end.

Definition customerSearchTimer (v : View) : View * list Effect :=
  searchCustomers (POS.customerSearch (page v)) v.

(** [onChange] of the two search fields. *)
Definition changeSearchQuery (text : string) (v : View) : View :=
  onPage (POS.setSearchQuery text) v.


(** An operation one of the page's own controls performs: a search result
    (any medicine), the plus and minus buttons (an update of the quantity
    alone), the bin of a line, "Clear Cart" and the discount field. *)
Definition from_controls (a : POS.Action) : Prop :=
  match a with
  | POS.UpdateCartItem _ updates => exists q, updates = POS.Partial.of_quantity q
  | _ => True
  end.

(** A line as [addToCart] creates it, whatever its quantity has become. *)
Definition undiscounted (line : POS.CartItem) : Prop :=
  POS.medicine_id line = Medicine.id (POS.medicine line)
  /\ POS.unit_price line = Medicine.unit_price (POS.medicine line)
  /\ POS.discount_percent line = 0%float.

End POSSearch.

(** ** The purchase-order page: the receive field, the statistics, the
    filters and the "New Purchase" form *)

Module PurchaseForm.

#[local] Open Scope list_scope.

(** [value={receiveQuantities[item.id] || item.quantity}] of an item's
    "Received Quantity" field. *)
Definition receivedFieldValue (item : Purchases.PurchaseItem)
    (s : Purchases.State) : Z :=
  match Purchases.receiveQuantities s !! Purchases.item_id item with
  | Some v => if (v =? 0)%Z then Purchases.quantity item else v
  | None => Purchases.quantity item
  end.

Definition control_eqb (a b : Purchases.Control) : bool :=
  match a, b with
  | Purchases.ViewDetails, Purchases.ViewDetails
  | Purchases.ReceiveOrder, Purchases.ReceiveOrder
  | Purchases.CancelOrder, Purchases.CancelOrder => true
  | _, _ => false
  end.

(** The values [toNumber] tells apart. *)
Inductive JsValue : Type :=
| JsNull
| JsUndefined
| JsNumber (x : float)
| JsString (text : string)
| JsOther.

(** [array.filter((_, i) => keep(i))], the index counted from [start]. *)
Fixpoint filter_index {A : Type} (keep : nat -> bool) (start : nat) (l : list A)
    : list A :=
  match l with
  | [] => []
  | x :: rest =>
      if keep start then x :: filter_index keep (S start) rest
      else filter_index keep (S start) rest
  end.

(** An array length as a number. *)
Definition number_of_nat (n : nat) : float :=
  PrimFloat.of_uint63 (Uint63.of_Z (Z.of_nat n)).

(** The page's own [interface Medicine]. *)
Module Medicine.
Record t : Type := mk {
  id : Z;
  name : string;
  brand : string;
  sku : string;
  stock_quantity : float;
  unit_price : float;
  unit : string
}.
End Medicine.

(** A row of the form, every field as the text of its input. *)
Record NewItem : Type := mkNewItem {
  medicine_id : string;
  quantity : string;
  unit_cost : string;
  expiry_date : string;
  batch_number : string
}.

Record NewPurchase : Type := mkNewPurchase {
  supplier_id : string;
  expected_delivery : string;
  notes : string;
  items : list NewItem
}.

Inductive DateFilter : Set := all_dates | today | week | month.

(** The state cells of [PurchasesPage] that the filters and the form touch;
    a filter set to ['all'] is [None]. *)
Record State : Type := mkState {
  searchQuery : string;
  statusFilter : option Purchases.OrderStatus;
  supplierFilter : option Z;
  dateFilter : DateFilter;
  loading : bool;
  showAddModal : bool;
  medicines : list Medicine.t;
  newPurchase : NewPurchase;
  newItem : NewItem
}.

Definition setFilters (q : string) (st : option Purchases.OrderStatus)
    (su : option Z) (d : DateFilter) (s : State) : State :=
  mkState q st su d (loading s) (showAddModal s) (medicines s) (newPurchase s)
    (newItem s).
Definition setLoading (v : bool) (s : State) : State :=
  mkState (searchQuery s) (statusFilter s) (supplierFilter s) (dateFilter s) v
    (showAddModal s) (medicines s) (newPurchase s) (newItem s).
Definition setShowAddModal (v : bool) (s : State) : State :=
  mkState (searchQuery s) (statusFilter s) (supplierFilter s) (dateFilter s)
    (loading s) v (medicines s) (newPurchase s) (newItem s).
Definition setNewPurchase (v : NewPurchase) (s : State) : State :=
  mkState (searchQuery s) (statusFilter s) (supplierFilter s) (dateFilter s)
    (loading s) (showAddModal s) (medicines s) v (newItem s).
Definition setNewItem (v : NewItem) (s : State) : State :=
  mkState (searchQuery s) (statusFilter s) (supplierFilter s) (dateFilter s)
    (loading s) (showAddModal s) (medicines s) (newPurchase s) v.

Definition blankItem : NewItem := mkNewItem "" "1" "" "" "".
Definition blankPurchase : NewPurchase := mkNewPurchase "" "" "" [].

(** The query parameters of [purchasesAPI.getPurchases]. *)
Record GetPurchasesParams : Type := mkParams {
  status_filter : option Purchases.OrderStatus;
  param_supplier_id : option Z
}.

(** The body of [purchasesAPI.createPurchase]; a field that is [undefined]
    is [None], a number that is [NaN] is [None]. *)
Module Payload.
Record Item : Type := mkItem {
  medicine_id : option Z;
  quantity : float;
  unit_cost : float;
  expiry_date : option string;
  batch_number : option string
}.
Record t : Type := mk {
  supplier_id : option Z;
  expected_delivery : option string;
  notes : option string;
  items : list Item
}.
End Payload.

Inductive Effect : Type :=
| Alert (message : string)
| GetPurchases (params : GetPurchasesParams)
| PostCreatePurchase (purchaseData : Payload.t).

(** [text || undefined]. *)
Definition or_undefined (text : string) : option string :=
  if String.eqb text "" then None else Some text.

(** [!text]. *)
Definition blank (text : string) : bool := String.eqb text "".

Record Stats : Type := mkStats {
  total_purchases : nat;
  total_spent : float;
  pending_orders : nat;
  average_order_value : float
}.

Section Parsing.

(** The two built-ins that read numbers out of text: [parseFloat], and
    [parseInt] with [None] for [NaN]. *)
Variable parseFloat : string -> float.
Variable parseInt : string -> option Z.

Definition toNumber (value : JsValue) : float :=
  match value with
  | JsNull | JsUndefined => 0%float
  | JsNumber x => x
  | JsString text =>
      let num := parseFloat text in
      if is_nan num then 0%float else num
  | JsOther => 0%float
  end.

(** [fetchPurchases] up to [await purchasesAPI.getPurchases(params)]. *)
Definition fetchPurchases (s : State) : State * list Effect :=
  (setLoading true s, [GetPurchases (mkParams (statusFilter s) (supplierFilter s))]).

(** [fetchPurchases] of the render whose state was [render], called when the
    state has become [s]: the filters it reads are those of its own render. *)
Definition fetchPurchases_of (render s : State) : State * list Effect :=
  (setLoading true s,
   [GetPurchases (mkParams (statusFilter render) (supplierFilter render))]).

(** "Apply Filters", and Enter in the search field. *)
Definition handleSearch (s : State) : State * list Effect := fetchPurchases s.

(** "Clear": the four setters, then [fetchPurchases()] of the same render,
    which reads the filters of that render. *)
Definition clearFilters (s : State) : State * list Effect :=
  let '(s', effects) := fetchPurchases s in
  (setFilters "" None None all_dates s', effects).

Definition handleAddItem (s : State) : State * list Effect :=
  if blank (medicine_id (newItem s)) || blank (quantity (newItem s))
     || blank (unit_cost (newItem s))
  then (s, [Alert "Please fill in all required item fields"])
  else
    let medicine :=
      find (fun m =>
              match parseInt (medicine_id (newItem s)) with
              | Some n => (Medicine.id m =? n)%Z
              | None => false
              end)
        (medicines s) in
    match medicine with
    | None => (s, [])
    | Some _ =>
        (setNewItem blankItem
           (setNewPurchase
              (mkNewPurchase (supplier_id (newPurchase s))
                 (expected_delivery (newPurchase s)) (notes (newPurchase s))
                 (items (newPurchase s)
                  ++ [mkNewItem (medicine_id (newItem s)) (quantity (newItem s))
                        (unit_cost (newItem s)) (expiry_date (newItem s))
                        (batch_number (newItem s))]))
              s),
         [])
    end.

Definition handleRemoveItem (index : nat) (s : State) : State :=
  setNewPurchase
    (mkNewPurchase (supplier_id (newPurchase s))
       (expected_delivery (newPurchase s)) (notes (newPurchase s))
       (filter_index (fun i => negb (i =? index)%nat) 0 (items (newPurchase s))))
    s.

Definition calculateTotal (s : State) : float :=
  fold_left
    (fun total item =>
       (total
        + toNumber (JsString (quantity item))
          * toNumber (JsString (unit_cost item)))%float)
    (items (newPurchase s)) 0%float.

Definition resetNewPurchase (s : State) : State :=
  setNewItem blankItem (setNewPurchase blankPurchase s).

Definition purchaseData (s : State) : Payload.t :=
  Payload.mk (parseInt (supplier_id (newPurchase s)))
    (or_undefined (expected_delivery (newPurchase s)))
    (or_undefined (notes (newPurchase s)))
    (map (fun item =>
            Payload.mkItem (parseInt (medicine_id item))
              (toNumber (JsString (quantity item)))
              (toNumber (JsString (unit_cost item)))
              (or_undefined (expiry_date item))
              (or_undefined (batch_number item)))
       (items (newPurchase s))).

(** [handleCreatePurchase] up to [await purchasesAPI.createPurchase(..)]. *)
Definition handleCreatePurchase (s : State) : State * list Effect :=
  if blank (supplier_id (newPurchase s)) || POS.is_empty (items (newPurchase s))
  then (s, [Alert "Please select a supplier and add at least one item"])
  else (s, [PostCreatePurchase (purchaseData s)]).

(** [handleCreatePurchase] from the point where the request settles.  The
    handler is the one of the render in which "Create" was clicked, whose
    state was [render]; [s] is the state when the answer arrives.  The setters
    act on [s]; [fetchPurchases] is the closure of that render. *)
Definition handleCreatePurchase_settled (r : Http.Response unit)
    (render s : State) : State * list Effect :=
  match r with
  | Http.Resolved _ =>
      let '(s', effects) :=
        fetchPurchases_of render (resetNewPurchase (setShowAddModal false s)) in
      (s', effects ++ [Alert "Purchase order created successfully!"])
  | Http.Rejected detail =>
      (s, [Alert (Http.detail_or detail "Failed to create purchase order")])
  end.

Definition calculateStats (purchases : list Purchases.Purchase) : Stats :=
  let totalPurchases := length purchases in
  let totalSpent :=
    fold_left
      (fun sum purchase =>
         (sum + toNumber (JsNumber (Purchases.total_amount purchase)))%float)
      purchases 0%float in
  let pendingOrders :=
    length
      (List.filter
         (fun p =>
            Purchases.status_eqb (Purchases.status p) Purchases.pending
            || Purchases.status_eqb (Purchases.status p) Purchases.ordered)
         purchases) in
  let averageOrderValue :=
    if (0 <? totalPurchases)%nat
    then (totalSpent / number_of_nat totalPurchases)%float
    else 0%float in
  mkStats totalPurchases totalSpent pendingOrders averageOrderValue.

End Parsing.

End PurchaseForm.

(** ** More sample data *)

Module Fixture.

#[local] Open Scope list_scope.

(** Stand-ins for [parseInt] and [parseFloat] that agree with them on plain
    strings of decimal digits, which is all the examples below feed them. *)
Fixpoint digits (acc : Z) (text : string) : option Z :=
  match text with
  | EmptyString => Some acc
  | String c rest =>
      let d := (Z.of_N (Ascii.N_of_ascii c) - 48)%Z in
      if (0 <=? d)%Z && (d <=? 9)%Z then digits (10 * acc + d) rest else None
  end.

Definition parseInt (text : string) : option Z :=
  match text with
  | EmptyString => None
  | _ => digits 0 text
  end.

Definition parseFloat (text : string) : float :=
  match parseInt text with
  | Some n => PrimFloat.of_uint63 (Uint63.of_Z n)
  | None => nan
  end.

Definition amoxicillin : PurchaseForm.Medicine.t :=
  PurchaseForm.Medicine.mk 4 "Amoxicillin" "Amoxil" "AMX-250" 30 12 "strip".

(** The form with a supplier chosen, one row entered and a second row typed
    into the fields. *)
Definition form : PurchaseForm.State :=
  PurchaseForm.mkState "po-7" (Some Purchases.pending) (Some 3%Z)
    PurchaseForm.all_dates false true [amoxicillin]
    (PurchaseForm.mkNewPurchase "3" "" ""
       [PurchaseForm.mkNewItem "4" "10" "4" "" ""])
    (PurchaseForm.mkNewItem "4" "5" "9" "" "B-17").

Definition tab : Auth.Window := Some {["theme" := "dark"]}.

(** The one-character query e-acute: two bytes of UTF-8, one code unit. *)
Definition e_acute : string :=
  String (Ascii.ascii_of_nat 195) (String (Ascii.ascii_of_nat 169) EmptyString).

Definition alice : Customer.t := Customer.mk 12 "Alice" "0300" "CUST-012" 40.

Definition till : POSSearch.View := POSSearch.mkView Sample.two_lines false [].

End Fixture.

(** * Properties of the point-of-sale page *)

Module POSFacts.

Import POS.
#[local] Open Scope float_scope.
#[local] Open Scope list_scope.

(** ** Totals *)

Lemma fold_prices_snoc (lines : list CartItem) (line : CartItem) (acc : float) :
  fold_left (fun sum item => sum + total_price item) (lines ++ [line]) acc
  = fold_left (fun sum item => sum + total_price item) lines acc
    + total_price line.
Proof. rewrite fold_left_app. reflexivity. Qed.

Lemma line_total_snoc (lines : list CartItem) (line : CartItem) :
  line_total (lines ++ [line]) = line_total lines + total_price line.
Proof.
  unfold line_total. rewrite map_app, rev_app_distr. reflexivity.
Qed.

Lemma reduce_is_line_total (lines : list CartItem) :
  fold_left (fun sum item => sum + total_price item) lines 0 = line_total lines.
Proof.
  induction lines as [| line lines IH] using rev_ind.
  - reflexivity.
  - rewrite fold_prices_snoc, line_total_snoc, IH. reflexivity.
Qed.

(** C1.  In every state the page reaches through cart operations and changes
    of the cart discount, the totals of the render are derived from the
    lines as they are now: the subtotal is the sum of the lines'
    [total_price] in cart order, the discount amount is
    [subtotal * discount / 100], the tax amount is [subtotal * 18 / 100], and
    the grand total is [subtotal - discountAmount + taxAmount]. *)
Theorem totals_rederived (s : State) (H : reachable any_action s) :
  subtotal s = line_total (cart s)
  /\ discountAmount s = subtotal s * discount s / 100
  /\ taxAmount s = subtotal s * 18 / 100
  /\ grandTotal s = subtotal s - discountAmount s + taxAmount s.
Proof.
  split; [| repeat split].
  unfold subtotal. apply reduce_is_line_total.
Qed.

Lemma totals_rederived_witness :
  reachable any_action Sample.two_lines
  /\ (subtotal Sample.two_lines = line_total (cart Sample.two_lines)
      /\ discountAmount Sample.two_lines
         = subtotal Sample.two_lines * discount Sample.two_lines / 100
      /\ taxAmount Sample.two_lines = subtotal Sample.two_lines * 18 / 100
      /\ grandTotal Sample.two_lines
         = subtotal Sample.two_lines - discountAmount Sample.two_lines
           + taxAmount Sample.two_lines).
Proof.
  assert (R : reachable any_action Sample.two_lines).
  { unfold Sample.two_lines, Sample.one_line.
    apply (reachable_act _ (AddToCart Sample.ibuprofen)); [exact I |].
    apply (reachable_act _ (AddToCart Sample.paracetamol)); [exact I |].
    apply reachable_initial. }
  split; [exact R | apply (totals_rederived Sample.two_lines R)].
Defined.

(** Scenario A of the specification, in binary64: the printed amounts are
    the nearest doubles of 345, 17.25, 62.10 and 389.85. *)
Example scenario_a_totals :
  map (fun line => (quantity line, total_price line)) (cart Sample.scenario_a)
  = [(3, 300); (1, 45)]
  /\ subtotal Sample.scenario_a = 345
  /\ discountAmount Sample.scenario_a = 17.25
  /\ taxAmount Sample.scenario_a = 0x1.f0ccccccccccdp+5
  /\ grandTotal Sample.scenario_a = 0x1.85d999999999ap+8.
Proof. vm_compute. repeat split. Qed.

(** ** Lines and their identity *)

Lemma lookup_map {A B : Type} (f : A -> B) (l : list A) (i : nat) :
  map f l !! i = f <$> l !! i.
Proof.
  revert i. induction l as [| x l IH]; intros [| i]; simpl; auto.
Qed.

Lemma find_absent {A : Type} (f : A -> bool) (l : list A) :
  (forall x, In x l -> f x = false) -> find f l = None.
Proof.
  intros H. destruct (find f l) as [x |] eqn:E; [| reflexivity].
  apply find_some in E as [Hin Hf]. rewrite (H x Hin) in Hf. discriminate.
Qed.

Lemma find_snoc_absent {A : Type} (f : A -> bool) (l : list A) (x : A) :
  (forall y, In y l -> f y = false) -> f x = true -> find f (l ++ [x]) = Some x.
Proof.
  intros H Hx. induction l as [| y l IH]; simpl.
  - rewrite Hx. reflexivity.
  - rewrite (H y (or_introl eq_refl)). apply IH.
    intros z Hz. apply H. right. exact Hz.
Qed.

Lemma map_untouched {A : Type} (f : A -> A) (l : list A) :
  (forall x, In x l -> f x = x) -> map f l = l.
Proof.
  intros H. induction l as [| x l IH]; simpl; [reflexivity |].
  rewrite (H x (or_introl eq_refl)), IH; [reflexivity |].
  intros y Hy. apply H. right. exact Hy.
Qed.

(** The cart that [addToCart] leaves, by the outcome of its search. *)
Lemma cart_addToCart (medicine : Medicine.t) (s : State) :
  cart (addToCart medicine s)
  = match find (fun item => medicine_id item =? Medicine.id medicine)%Z (cart s)
    with
    | Some _ =>
        map (fun item =>
               if (medicine_id item =? Medicine.id medicine)%Z
               then mkCartItem (medicine_id item) (POS.medicine item)
                      (quantity item + 1) (unit_price item)
                      (discount_percent item)
                      ((quantity item + 1) * unit_price item
                       * (1 - discount_percent item / 100))
               else item)
          (cart s)
    | None =>
        cart s
        ++ [mkCartItem (Medicine.id medicine) medicine 1
              (Medicine.unit_price medicine) 0 (Medicine.unit_price medicine)]
    end.
Proof.
  unfold addToCart.
  destruct (find _ (cart s)); reflexivity.
Qed.

(** C6.  When the cart already has a line for the medicine, [addToCart] keeps
    the number and order of the lines, adds 1 to the quantity of that line
    and sets its [total_price] to
    [quantity * unit_price * (1 - discount_percent / 100)] for the new
    quantity, leaving every other line as it was.  Adding a medicine twice to a
    cart that has no line for it appends a single line of quantity 2. *)
Theorem addToCart_accumulates (medicine : Medicine.t) (s : State) :
  ((exists line, In line (cart s) /\ medicine_id line = Medicine.id medicine) ->
   length (cart (addToCart medicine s)) = length (cart s)
   /\ forall (i : nat) (old : CartItem),
        cart s !! i = Some old ->
        exists new,
          cart (addToCart medicine s) !! i = Some new
          /\ if (medicine_id old =? Medicine.id medicine)%Z then
               medicine_id new = medicine_id old
               /\ POS.medicine new = POS.medicine old
               /\ unit_price new = unit_price old
               /\ discount_percent new = discount_percent old
               /\ quantity new = quantity old + 1
               /\ total_price new
                  = line_price (quantity new) (unit_price new)
                      (discount_percent new)
             else new = old)
  /\ ((forall line, In line (cart s) -> medicine_id line <> Medicine.id medicine) ->
      cart (addToCart medicine (addToCart medicine s))
      = cart s
        ++ [mkCartItem (Medicine.id medicine) medicine 2
              (Medicine.unit_price medicine) 0
              (line_price 2 (Medicine.unit_price medicine) 0)]).
Proof.
  split.
  - intros (line & Hin & Hid).
    rewrite cart_addToCart.
    destruct (find _ (cart s)) as [found |] eqn:Efind.
    + split; [apply length_map |].
      intros i old Hold. rewrite lookup_map, Hold. simpl.
      eexists. split; [reflexivity |].
      destruct (medicine_id old =? Medicine.id medicine)%Z; simpl; auto 10.
    + apply (find_none _ _ Efind) in Hin. simpl in Hin.
      rewrite Hid, Z.eqb_refl in Hin. discriminate.
  - intros Habsent.
    assert (Hfalse : forall line, In line (cart s) ->
              (medicine_id line =? Medicine.id medicine)%Z = false).
    { intros line Hin. apply Z.eqb_neq. apply Habsent. exact Hin. }
    rewrite (cart_addToCart medicine (addToCart medicine s)).
    rewrite (cart_addToCart medicine s).
    rewrite (find_absent _ _ Hfalse).
    rewrite (find_snoc_absent _ (cart s) _ Hfalse) by apply Z.eqb_refl.
    rewrite map_app. simpl. rewrite Z.eqb_refl.
    rewrite map_untouched; [reflexivity |].
    intros line Hin. rewrite (Hfalse line Hin). reflexivity.
Qed.

Lemma addToCart_accumulates_witness :
  (forall line, In line (cart initial) ->
     medicine_id line <> Medicine.id Sample.paracetamol)
  /\ cart (addToCart Sample.paracetamol (addToCart Sample.paracetamol initial))
     = [mkCartItem 1 Sample.paracetamol 2 100 0 200]
  /\ (exists line, In line (cart Sample.one_line)
        /\ medicine_id line = Medicine.id Sample.paracetamol)
  /\ length (cart (addToCart Sample.paracetamol Sample.one_line)) = 1%nat.
Proof.
  assert (Habsent : forall line, In line (cart initial) ->
            medicine_id line <> Medicine.id Sample.paracetamol)
    by (intros line []).
  assert (Hpresent : exists line, In line (cart Sample.one_line)
            /\ medicine_id line = Medicine.id Sample.paracetamol)
    by (eexists; split; [left; reflexivity | reflexivity]).
  split; [exact Habsent |].
  split; [exact (proj2 (addToCart_accumulates Sample.paracetamol initial) Habsent) |].
  split; [exact Hpresent |].
  exact (proj1 (proj1 (addToCart_accumulates Sample.paracetamol Sample.one_line)
                 Hpresent)).
Defined.

(** ** Removing a line *)

Lemma filter_keeps_all {A : Type} (f : A -> bool) (l : list A) :
  (forall x, In x l -> f x = true) -> List.filter f l = l.
Proof.
  intros H. induction l as [| x l IH]; simpl; [reflexivity |].
  rewrite (H x (or_introl eq_refl)), IH; [reflexivity |].
  intros y Hy. apply H. right. exact Hy.
Qed.

Lemma filter_twice {A : Type} (f : A -> bool) (l : list A) :
  List.filter f (List.filter f l) = List.filter f l.
Proof.
  apply filter_keeps_all. intros x Hx.
  apply filter_In in Hx. apply Hx.
Qed.

Lemma setCart_same (s : State) : setCart (cart s) s = s.
Proof. destruct s. reflexivity. Qed.

(** C8.  [removeFromCart] with an id that no line of the cart carries leaves
    the whole state as it was; it is a total function, so there is nothing
    to raise.  Removing the same id a second time changes nothing more. *)
Theorem removeFromCart_idempotent (medicineId : Z) (s : State) :
  ((forall line, In line (cart s) -> medicine_id line <> medicineId) ->
   removeFromCart medicineId s = s)
  /\ removeFromCart medicineId (removeFromCart medicineId s)
     = removeFromCart medicineId s.
Proof.
  split.
  - intros Habsent. unfold removeFromCart.
    rewrite filter_keeps_all; [apply setCart_same |].
    intros line Hin. apply negb_true_iff, Z.eqb_neq, Habsent, Hin.
  - unfold removeFromCart at 1 3. simpl.
    unfold removeFromCart, setCart. simpl. rewrite filter_twice. reflexivity.
Qed.

Lemma removeFromCart_idempotent_witness :
  (forall line, In line (cart Sample.two_lines) -> medicine_id line <> 7%Z)
  /\ removeFromCart 7 Sample.two_lines = Sample.two_lines.
Proof.
  assert (Habsent : forall line, In line (cart Sample.two_lines) ->
            medicine_id line <> 7%Z).
  { intros line [<- | [<- | []]]; discriminate. }
  split; [exact Habsent |].
  exact (proj1 (removeFromCart_idempotent 7 Sample.two_lines) Habsent).
Defined.

(** ** One line per medicine *)

Lemma ids_addToCart (medicine : Medicine.t) (s : State) :
  map medicine_id (cart (addToCart medicine s))
  = match find (fun item => medicine_id item =? Medicine.id medicine)%Z (cart s)
    with
    | Some _ => map medicine_id (cart s)
    | None => map medicine_id (cart s) ++ [Medicine.id medicine]
    end.
Proof.
  rewrite cart_addToCart. destruct (find _ (cart s)).
  - rewrite map_map. apply map_ext. intros item.
    destruct (medicine_id item =? Medicine.id medicine)%Z; reflexivity.
  - rewrite map_app. reflexivity.
Qed.

Lemma ids_updateCartItem (medicineId : Z) (updates : Partial.CartItem) (s : State) :
  Partial.medicine_id updates = None ->
  map medicine_id (cart (updateCartItem medicineId updates s))
  = map medicine_id (cart s).
Proof.
  intros Hnone. unfold updateCartItem. simpl.
  rewrite map_map. apply map_ext. intros item.
  destruct (medicine_id item =? medicineId)%Z; [| reflexivity].
  destruct (defined _ || defined _); simpl; rewrite Hnone; reflexivity.
Qed.

Lemma NoDup_map_filter {A B : Type} (f : A -> B) (keep : A -> bool) (l : list A) :
  List.NoDup (map f l) -> List.NoDup (map f (List.filter keep l)).
Proof.
  induction l as [| x l IH]; simpl; intros H; [exact H |].
  apply List.NoDup_cons_iff in H as [Hx Hl].
  destruct (keep x); simpl; [| auto].
  apply List.NoDup_cons_iff. split; [| auto].
  intros Hin. apply Hx.
  apply in_map_iff in Hin as (y & Hy & Hin).
  apply in_map_iff. exists y. split; [exact Hy |].
  apply filter_In in Hin. apply Hin.
Qed.

Lemma NoDup_snoc {A : Type} (l : list A) (x : A) :
  List.NoDup l -> ~ In x l -> List.NoDup (l ++ [x]).
Proof.
  intros Hl Hx. induction l as [| y l IH]; simpl.
  - apply List.NoDup_cons_iff. split; [intros [] | apply List.NoDup_nil].
  - apply List.NoDup_cons_iff in Hl as [Hy Hl].
    apply List.NoDup_cons_iff. split.
    + intros Hin. apply in_app_or in Hin as [Hin | [-> | []]].
      * exact (Hy Hin).
      * apply Hx. left. reflexivity.
    + apply IH; [exact Hl |]. intros Hin. apply Hx. right. exact Hin.
Qed.

(** The claim of C9 fails for an update that carries a [medicine_id]:
    with a paracetamol line (id 1) and an ibuprofen line (id 2) in the cart,
    [updateCartItem(1, { medicine_id: 2 })] leaves two lines with id 2. *)
Lemma relabelled_line_shares_id :
  reachable any_action
    (updateCartItem 1 Sample.relabel_as_ibuprofen Sample.two_lines)
  /\ map medicine_id
       (cart (updateCartItem 1 Sample.relabel_as_ibuprofen Sample.two_lines))
     = [2%Z; 2%Z]
  /\ ~ List.NoDup
        (map medicine_id
           (cart (updateCartItem 1 Sample.relabel_as_ibuprofen Sample.two_lines))).
Proof.
  split; [| split].
  - apply (reachable_act _ (UpdateCartItem 1 Sample.relabel_as_ibuprofen));
      [exact I |].
    apply (reachable_act _ (AddToCart Sample.ibuprofen)); [exact I |].
    apply (reachable_act _ (AddToCart Sample.paracetamol)); [exact I |].
    apply reachable_initial.
  - reflexivity.
  - change (~ List.NoDup [2%Z; 2%Z]). intros H.
    apply List.NoDup_cons_iff in H as [H _]. apply H. left. reflexivity.
Qed.

(** C9 (amended).  In every state reached from the first render by
    [addToCart], [removeFromCart], [clearCart], changes of the cart discount
    and those [updateCartItem] calls whose update carries no [medicine_id],
    no two lines of the cart share a [medicine_id]. *)
Theorem one_line_per_medicine (s : State) (H : reachable keeps_identity s) :
  List.NoDup (map medicine_id (cart s)).
Proof.
  induction H as [| a s Hallowed Hreach IH]; [apply List.NoDup_nil |].
  destruct a as [medicine | medicineId updates | medicineId | | parsed];
    cbn [act keeps_identity] in *.
  - rewrite ids_addToCart.
    destruct (find _ (cart s)) eqn:Efind; [exact IH |].
    apply NoDup_snoc; [exact IH |].
    intros Hin. apply in_map_iff in Hin as (line & Hid & Hin).
    apply (find_none _ _ Efind) in Hin. simpl in Hin.
    rewrite Hid, Z.eqb_refl in Hin. discriminate.
  - rewrite ids_updateCartItem; [exact IH | exact Hallowed].
  - apply NoDup_map_filter. exact IH.
  - apply List.NoDup_nil.
  - exact IH.
Qed.

Lemma one_line_per_medicine_witness :
  reachable keeps_identity (clickPlus (mkCartItem 1 Sample.paracetamol 1 100 0 100)
                              Sample.two_lines)
  /\ List.NoDup (map medicine_id
              (cart (clickPlus (mkCartItem 1 Sample.paracetamol 1 100 0 100)
                       Sample.two_lines))).
Proof.
  assert (R : reachable keeps_identity
                (clickPlus (mkCartItem 1 Sample.paracetamol 1 100 0 100)
                   Sample.two_lines)).
  { apply (reachable_act _ (UpdateCartItem 1 (Partial.of_quantity (1 + 1))));
      [reflexivity |].
    apply (reachable_act _ (AddToCart Sample.ibuprofen)); [exact I |].
    apply (reachable_act _ (AddToCart Sample.paracetamol)); [exact I |].
    apply reachable_initial. }
  split; [exact R | exact (one_line_per_medicine _ R)].
Defined.

(** ** Updating a line *)

(** What [updateCartItem] writes in place of a line. *)
Lemma updateCartItem_line (medicineId : Z) (updates : Partial.CartItem)
    (s : State) (i : nat) (old : CartItem) :
  cart s !! i = Some old ->
  cart (updateCartItem medicineId updates s) !! i
  = Some (if (medicine_id old =? medicineId)%Z then
            if defined (Partial.quantity updates)
               || defined (Partial.discount_percent updates)
            then with_total_price
                   (quantity (spread old updates) * unit_price (spread old updates)
                    * (1 - discount_percent (spread old updates) / 100))
                   (spread old updates)
            else spread old updates
          else old).
Proof.
  intros Hold. unfold updateCartItem. simpl.
  rewrite lookup_map, Hold. reflexivity.
Qed.

Lemma length_updateCartItem (medicineId : Z) (updates : Partial.CartItem)
    (s : State) :
  length (cart (updateCartItem medicineId updates s)) = length (cart s).
Proof. unfold updateCartItem. simpl. apply length_map. Qed.

(** The claim of C10 fails for an update that carries a [total_price] and
    neither a quantity nor a discount: [updateCartItem(1, { total_price: 5 })]
    on a paracetamol line priced 100 leaves the line with [total_price] 5. *)
Lemma total_price_overridden :
  defined (Partial.quantity Sample.price_override)
  || defined (Partial.discount_percent Sample.price_override) = false
  /\ total_price <$> cart Sample.one_line !! 0%nat = Some 100
  /\ total_price <$> cart (updateCartItem 1 Sample.price_override Sample.one_line)
                       !! 0%nat
     = Some 5.
Proof. repeat split. Qed.

(** C10 (amended).  [updateCartItem(medicineId, updates)] keeps the number and
    the order of the lines and returns every line with another [medicine_id]
    as it was.  On a matched line each field takes the value the update
    supplies, or stays; [total_price] is set to
    [quantity * unit_price * (1 - discount_percent / 100)] over the merged
    fields exactly when the update supplies a quantity or a discount, and
    otherwise is the [total_price] the update supplies, or the old one when it
    supplies none. *)
Theorem updateCartItem_frame (medicineId : Z) (updates : Partial.CartItem)
    (s : State) :
  length (cart (updateCartItem medicineId updates s)) = length (cart s)
  /\ forall (i : nat) (old : CartItem),
       cart s !! i = Some old ->
       exists new,
         cart (updateCartItem medicineId updates s) !! i = Some new
         /\ if (medicine_id old =? medicineId)%Z then
              medicine_id new
              = default (medicine_id old) (Partial.medicine_id updates)
              /\ medicine new = default (medicine old) (Partial.medicine updates)
              /\ quantity new = default (quantity old) (Partial.quantity updates)
              /\ unit_price new
                 = default (unit_price old) (Partial.unit_price updates)
              /\ discount_percent new
                 = default (discount_percent old)
                     (Partial.discount_percent updates)
              /\ total_price new
                 = match Partial.quantity updates, Partial.discount_percent updates
                   with
                   | None, None =>
                       default (total_price old) (Partial.total_price updates)
                   | _, _ =>
                       line_price (quantity new) (unit_price new)
                         (discount_percent new)
                   end
            else new = old.
Proof.
  split; [apply length_updateCartItem |].
  intros i old Hold.
  rewrite (updateCartItem_line _ _ _ _ _ Hold).
  eexists. split; [reflexivity |].
  destruct (medicine_id old =? medicineId)%Z; [| reflexivity].
  destruct updates as [uid umed [q |] uprice [d |] utotal];
    simpl; repeat split; reflexivity.
Qed.

Lemma updateCartItem_frame_witness :
  cart Sample.two_lines !! 1%nat = Some (mkCartItem 2 Sample.ibuprofen 1 50 0 50)
  /\ exists new,
       cart (updateCartItem 1 (Partial.of_quantity 4) Sample.two_lines) !! 1%nat
       = Some new
       /\ new = mkCartItem 2 Sample.ibuprofen 1 50 0 50.
Proof.
  split; [reflexivity |].
  exact (proj2 (updateCartItem_frame 1 (Partial.of_quantity 4) Sample.two_lines)
           1%nat (mkCartItem 2 Sample.ibuprofen 1 50 0 50) eq_refl).
Defined.

(** The claim of C5 fails: a quantity of 0 is stored as 0 and the line stays
    (the cart is not the one [removeFromCart] would leave), and a discount of
    150 is stored as 150. *)
Lemma quantity_and_discount_not_clamped :
  cart (updateCartItem 1 Sample.quantity_zero Sample.one_line)
  = [mkCartItem 1 Sample.paracetamol 0 100 0 0]
  /\ cart (updateCartItem 1 Sample.quantity_zero Sample.one_line)
     <> cart (removeFromCart 1 Sample.one_line)
  /\ cart (updateCartItem 1 Sample.discount_150 Sample.one_line)
     = [mkCartItem 1 Sample.paracetamol 1 100 150 (-50)].
Proof.
  split; [reflexivity |]. split; [| reflexivity].
  intros H. discriminate H.
Qed.

Lemma ltb_leb (x y : float) : (x <? y) = true -> (x <=? y) = true.
Proof.
  rewrite ltb_spec, leb_spec. unfold SFltb, SFleb.
  destruct (SFcompare _ _) as [[] |]; auto.
Qed.

(** [Math.max(1, x)] is at least 1, unless [x] is [NaN]. *)
Lemma Math_max_1_lower (x : float) :
  is_nan x = true \/ (1 <=? Number.Math_max 1 x) = true.
Proof.
  unfold Number.Math_max.
  change (is_nan 1) with false. change (Number.is_neg_zero 1) with false.
  rewrite andb_false_r. simpl.
  destruct (is_nan x); [left; reflexivity |].
  destruct (1 <? x) eqn:E; right; [apply ltb_leb; exact E | reflexivity].
Qed.

(** C5 (amended).  [updateCartItem] never deletes a line and stores the
    quantity and the discount it is given as they are, without clamping.  The
    only clamp is in the minus button of a line, which asks for
    [Math.max(1, quantity - 1)]: the line stays, with a quantity that is at
    least 1 unless [quantity - 1] is [NaN]. *)
Theorem updateCartItem_stores_as_given (medicineId : Z)
    (updates : Partial.CartItem) (s : State) :
  length (cart (updateCartItem medicineId updates s)) = length (cart s)
  /\ (forall (i : nat) (old : CartItem),
        cart s !! i = Some old -> medicine_id old = medicineId ->
        exists new,
          cart (updateCartItem medicineId updates s) !! i = Some new
          /\ quantity new = default (quantity old) (Partial.quantity updates)
          /\ discount_percent new
             = default (discount_percent old) (Partial.discount_percent updates))
  /\ (forall (i : nat) (item : CartItem),
        cart s !! i = Some item ->
        length (cart (clickMinus item s)) = length (cart s)
        /\ exists new,
             cart (clickMinus item s) !! i = Some new
             /\ quantity new = Number.Math_max 1 (quantity item - 1)
             /\ (is_nan (quantity item - 1) = true
                 \/ (1 <=? quantity new) = true)).
Proof.
  split; [apply length_updateCartItem |]. split.
  - intros i old Hold Hid.
    rewrite (updateCartItem_line _ _ _ _ _ Hold).
    apply Z.eqb_eq in Hid. rewrite Hid.
    eexists. split; [reflexivity |].
    destruct (defined _ || defined _); split; reflexivity.
  - intros i item Hitem. unfold clickMinus.
    split; [apply length_updateCartItem |].
    rewrite (updateCartItem_line _ _ _ _ _ Hitem), Z.eqb_refl. simpl.
    eexists. split; [reflexivity |]. simpl.
    split; [reflexivity | apply Math_max_1_lower].
Qed.

Lemma updateCartItem_stores_as_given_witness :
  cart Sample.one_line !! 0%nat = Some (mkCartItem 1 Sample.paracetamol 1 100 0 100)
  /\ exists new,
       cart (clickMinus (mkCartItem 1 Sample.paracetamol 1 100 0 100)
               Sample.one_line) !! 0%nat = Some new
       /\ quantity new = Number.Math_max 1 (1 - 1)
       /\ (is_nan (1 - 1) = true \/ (1 <=? quantity new) = true).
Proof.
  split; [reflexivity |].
  exact (proj2 (proj2 (proj2 (updateCartItem_stores_as_given 1 Partial.empty
                                Sample.one_line))
                  0%nat (mkCartItem 1 Sample.paracetamol 1 100 0 100) eq_refl)).
Defined.

(** ** Submitting the sale *)

Lemma processing_act (a : Action) (s : State) : processing (act a s) = processing s.
Proof.
  destruct a; simpl; try reflexivity.
  unfold addToCart. destruct (find _ (cart s)); reflexivity.
Qed.

Lemma in_step_handle (e : Event) (p : Page) : in_step p -> in_step (handle e p).
Proof.
  unfold in_step. intros Hp. destruct e as [| r | a]; simpl.
  - unfold completeSaleDisabled, processSale.
    destruct (processing (ui p)) eqn:Eproc; simpl; [rewrite Eproc; exact Hp |].
    destruct (is_empty (cart (ui p))); simpl; [rewrite Eproc; exact Hp |].
    rewrite Hp. reflexivity.
  - destruct (pending p) as [| n] eqn:Epend; [rewrite Epend; exact Hp |].
    destruct (processing (ui p)); [| discriminate].
    injection Hp as ->. destruct r; reflexivity.
  - rewrite processing_act. exact Hp.
Qed.

Lemma in_step_run (events : list Event) (p : Page) :
  in_step p -> in_step (run events p).
Proof.
  revert p. induction events as [| e events IH]; intros p Hp; simpl; [exact Hp |].
  apply IH, in_step_handle, Hp.
Qed.

(** The claim of C7 fails on [processSale] itself: called again while the
    first request is out ([processing] is [true]), it neither refuses nor
    alerts, and posts the sale a second time. *)
Lemma second_processSale_posts_again :
  processing (fst (processSale Sample.one_line)) = true
  /\ snd (processSale (fst (processSale Sample.one_line)))
     = [PostProcessSale (saleData (fst (processSale Sample.one_line)))].
Proof. split; reflexivity. Qed.

(** C7 (amended).  [processSale] does not look at [processing]: on a cart
    with a line it posts the sale, whatever the flag.  The guard is the
    "Complete Sale" button, disabled exactly while [processing] is set or the
    cart is empty; through the button at most one sale request is out at a
    time, and the button is disabled for as long as one is.  When the request
    fails, the alert shows the server's detail (or "Sale processing failed"
    when there is none) and the cart, discount, customer and payment method
    stay as they are. *)
Theorem sale_guarded_by_button :
  (forall s : State,
      cart s <> [] ->
      processSale s = (setProcessing true s, [PostProcessSale (saleData s)]))
  /\ (forall s : State,
        completeSaleDisabled s = true <-> processing s = true \/ cart s = [])
  /\ (forall events : list Event,
        (pending (run events first_render) <= 1)%nat
        /\ (pending (run events first_render) = 1%nat ->
            completeSaleDisabled (ui (run events first_render)) = true))
  /\ (forall (detail : option string) (s : State),
        snd (processSale_settled (Http.Rejected detail) s)
        = [Alert (Http.detail_or detail "Sale processing failed")]
        /\ cart (fst (processSale_settled (Http.Rejected detail) s)) = cart s
        /\ discount (fst (processSale_settled (Http.Rejected detail) s))
           = discount s
        /\ customerId (fst (processSale_settled (Http.Rejected detail) s))
           = customerId s
        /\ paymentMethod (fst (processSale_settled (Http.Rejected detail) s))
           = paymentMethod s).
Proof.
  split; [| split; [| split]].
  - intros s Hcart. unfold processSale.
    destruct (cart s); [contradiction | reflexivity].
  - intros s. unfold completeSaleDisabled. rewrite orb_true_iff.
    destruct (cart s); simpl; split; intros [H | H]; auto; discriminate.
  - intros events.
    assert (H : in_step (run events first_render))
      by (apply in_step_run; reflexivity).
    unfold in_step in H. unfold completeSaleDisabled.
    destruct (processing (ui (run events first_render))); rewrite H.
    + split; [apply le_n | reflexivity].
    + split; [apply le_S, le_n | discriminate].
  - intros detail s. repeat split.
Qed.

Lemma sale_guarded_by_button_witness :
  cart Sample.one_line <> []
  /\ processSale Sample.one_line
     = (setProcessing true Sample.one_line,
        [PostProcessSale (saleData Sample.one_line)])
  /\ pending (run [Cart (AddToCart Sample.paracetamol);
                   ClickCompleteSale; ClickCompleteSale] first_render) = 1%nat
  /\ completeSaleDisabled
       (ui (run [Cart (AddToCart Sample.paracetamol);
                 ClickCompleteSale; ClickCompleteSale] first_render)) = true.
Proof.
  assert (Hcart : cart Sample.one_line <> []) by discriminate.
  split; [exact Hcart |].
  split; [exact (proj1 sale_guarded_by_button Sample.one_line Hcart) |].
  split; [reflexivity |].
  exact (proj2 (proj1 (proj2 (proj2 sale_guarded_by_button))
                  [Cart (AddToCart Sample.paracetamol);
                   ClickCompleteSale; ClickCompleteSale])
           eq_refl).
Defined.

End POSFacts.

(** * Properties of the purchase-order page *)

Module PurchasesFacts.

Import Purchases.
#[local] Open Scope list_scope.

(** ** Receiving an order *)

(** The claim of C2 fails.  With every field of the receive modal set to 0,
    "Confirm Receipt" still sends the request; and after a receive of 10 and
    3 against an order of 10 and 5 has succeeded, the page has computed no
    status: the selected order and the list still say [pending]. *)
Lemma receive_computes_no_status :
  all_zero Sample.order_b (receiveQuantities (Sample.receiving 0 0)) = true
  /\ handleReceivePurchase (Sample.receiving 0 0)
     = (Sample.receiving 0 0, [PutReceive 7 {[1 := 0; 2 := 0]}])
  /\ status <$> selectedPurchase
                  (fst (handleReceivePurchase_settled (Http.Resolved tt)
                          (fst (handleReceivePurchase (Sample.receiving 10 3)))))
     = Some pending
  /\ map status
       (purchases
          (fst (handleReceivePurchase_settled (Http.Resolved tt)
                  (fst (handleReceivePurchase (Sample.receiving 10 3))))))
     = [pending; received].
Proof.
  split; [reflexivity |]. split; [| split; reflexivity].
  vm_compute. reflexivity.
Qed.

(** C2 (amended).  With an order selected, the receive action computes no
    status of its own: it sends the [receiveQuantities] map as it stands, for
    the selected order, and changes nothing locally.  When the request
    succeeds it closes the modal, asks for the list of orders again and
    alerts; when it fails it alerts the server's detail.  Either way the
    selected order and the list are left as they were, and the list, with the
    status of every order, becomes whatever the re-fetch returns. *)
Theorem receive_leaves_status_to_backend (s : State) (selected : Purchase)
    (H : selectedPurchase s = Some selected) :
  handleReceivePurchase s
  = (s, [PutReceive (id selected) (receiveQuantities s)])
  /\ handleReceivePurchase_settled (Http.Resolved tt) s
     = (setShowReceiveModal false s,
        [GetPurchases; Alert "Purchase order received successfully!"])
  /\ (forall r : Http.Response unit,
        purchases (fst (handleReceivePurchase_settled r s)) = purchases s
        /\ selectedPurchase (fst (handleReceivePurchase_settled r s))
           = Some selected)
  /\ (forall (detail : option string),
        handleReceivePurchase_settled (Http.Rejected detail) s
        = (s, [Alert (Http.detail_or detail "Failed to receive purchase order")]))
  /\ (forall data : list Purchase,
        purchases (fetchPurchases_settled (Http.Resolved data) s) = data).
Proof.
  split; [| split; [| split; [| split]]].
  - unfold handleReceivePurchase. rewrite H. reflexivity.
  - reflexivity.
  - intros [body | detail]; split; simpl; auto.
  - reflexivity.
  - reflexivity.
Qed.

Lemma receive_leaves_status_to_backend_witness :
  selectedPurchase (Sample.receiving 10 3) = Some Sample.order_b
  /\ handleReceivePurchase (Sample.receiving 10 3)
     = (Sample.receiving 10 3,
        [PutReceive 7 (receiveQuantities (Sample.receiving 10 3))]).
Proof.
  split; [reflexivity |].
  exact (proj1 (receive_leaves_status_to_backend (Sample.receiving 10 3)
                  Sample.order_b eq_refl)).
Defined.

(** C4.  The code breaks the claim.  The "Received Quantity" field of an
    item declares the range 0 to the ordered quantity, but nothing enforces
    it on what is typed: on an order of 10 and 5, typing 99 and -3 stores 99
    (above the declared maximum 10) and -3 (below the declared minimum 0), and
    "Confirm Receipt" then sends them to the backend, with no validation
    error and no alert. *)
Theorem typed_quantity_escapes_declared_range :
  (receivedFieldMin = 0 /\ receivedFieldMax Sample.item1 = 10
   /\ receivedFieldMax Sample.item2 = 5)
  /\ receiveQuantities (Sample.receiving 99 (-3)) !! item_id Sample.item1
     = Some 99
  /\ receiveQuantities (Sample.receiving 99 (-3)) !! item_id Sample.item2
     = Some (-3)
  /\ in_range Sample.order_b (receiveQuantities (Sample.receiving 99 (-3))) = false
  /\ handleReceivePurchase (Sample.receiving 99 (-3))
     = (Sample.receiving 99 (-3), [PutReceive 7 {[1 := 99; 2 := -3]}]).
Proof.
  split; [repeat split |]. split; [reflexivity |]. split; [reflexivity |].
  split; [reflexivity |]. vm_compute. reflexivity.
Qed.

(** ** Changing the status of an order *)

(** The claim of C3 fails on [handleUpdateStatus]: asked to mark the received
    order 8 as [pending], it sends the request once the dialog is confirmed. *)
Lemma received_to_pending_is_sent :
  In Sample.order_done (purchases Sample.listing)
  /\ status Sample.order_done = received
  /\ handleUpdateStatus (id Sample.order_done) pending true Sample.listing
     = (Sample.listing, [PutStatus 8 pending]).
Proof. split; [right; left; reflexivity | split; reflexivity]. Qed.

(** C3 (amended).  [handleUpdateStatus] knows the order only by its id and
    checks no transition: confirmed, it sends the requested status, whatever
    it is; declined, it sends nothing.  No [InvalidTransition] exists.  What
    keeps a status change legal is the page: the only status it ever asks for
    is [cancelled], through a control rendered in the table for orders that
    are [pending] or [ordered], and in the details modal for orders that are
    [pending]. *)
Theorem status_change_guarded_by_controls :
  (forall (purchaseId : Z) (status : OrderStatus) (s : State),
      handleUpdateStatus purchaseId status true s
      = (s, [PutStatus purchaseId status])
      /\ handleUpdateStatus purchaseId status false s = (s, []))
  /\ (forall purchase : Purchase,
        In CancelOrder (rowControls purchase)
        <-> status purchase = pending \/ status purchase = ordered)
  /\ (forall selected : Purchase,
        In CancelOrder (detailControls selected) <-> status selected = pending)
  /\ (forall (c : Control) (purchase : Purchase) (confirmed : bool) (s : State)
             (purchaseId : Z) (requested : OrderStatus),
        In c (rowControls purchase) ->
        In (PutStatus purchaseId requested)
          (snd (rowClick c purchase confirmed s)) ->
        purchaseId = id purchase /\ requested = cancelled
        /\ (status purchase = pending \/ status purchase = ordered))
  /\ (forall (c : Control) (selected : Purchase) (asked confirmed : bool)
             (s : State) (purchaseId : Z) (requested : OrderStatus),
        In c (detailControls selected) ->
        In (PutStatus purchaseId requested)
          (snd (detailClick c selected asked confirmed s)) ->
        purchaseId = id selected /\ requested = cancelled
        /\ status selected = pending).
Proof.
  assert (Hrow : forall purchase : Purchase,
             In CancelOrder (rowControls purchase)
             <-> status purchase = pending \/ status purchase = ordered).
  { intros purchase. unfold rowControls.
    destruct (status purchase); simpl; split;
      intros H; intuition discriminate. }
  assert (Hdetail : forall selected : Purchase,
             In CancelOrder (detailControls selected)
             <-> status selected = pending).
  { intros selected. unfold detailControls.
    destruct (status selected); simpl; split;
      intros H; intuition discriminate. }
  split; [| split; [exact Hrow | split; [exact Hdetail | split]]].
  - intros purchaseId status s. split; reflexivity.
  - intros c purchase confirmed s purchaseId requested Hc Hput.
    destruct c; simpl in Hput; try contradiction.
    unfold handleUpdateStatus in Hput.
    destruct confirmed; simpl in Hput; [| contradiction].
    destruct Hput as [Hput | []]. injection Hput as <- <-.
    split; [reflexivity |]. split; [reflexivity |]. apply Hrow, Hc.
  - intros c selected asked confirmed s purchaseId requested Hc Hput.
    destruct c; simpl in Hput; try contradiction.
    unfold handleUpdateStatus in Hput.
    destruct asked, confirmed; simpl in Hput; try contradiction.
    destruct Hput as [Hput | []]. injection Hput as <- <-.
    split; [reflexivity |]. split; [reflexivity |]. apply Hdetail, Hc.
Qed.

Lemma status_change_guarded_by_controls_witness :
  In CancelOrder (rowControls Sample.order_b)
  /\ In (PutStatus 7 cancelled)
       (snd (rowClick CancelOrder Sample.order_b true Sample.listing))
  /\ (status Sample.order_b = pending \/ status Sample.order_b = ordered).
Proof.
  assert (Hc : In CancelOrder (rowControls Sample.order_b))
    by (right; right; left; reflexivity).
  assert (Hput : In (PutStatus 7 cancelled)
                   (snd (rowClick CancelOrder Sample.order_b true Sample.listing)))
    by (left; reflexivity).
  split; [exact Hc |]. split; [exact Hput |].
  exact (proj2 (proj2 (proj1 (proj2 (proj2 (proj2
           status_change_guarded_by_controls)))
           CancelOrder Sample.order_b true Sample.listing 7 cancelled Hc Hput))).
Defined.

End PurchasesFacts.

(** * Further properties of the point-of-sale page *)

Module POSMoreFacts.

Import POS POSSearch.
#[local] Open Scope float_scope.
#[local] Open Scope list_scope.

(** ** What the controls can do to a line *)

Lemma undiscounted_addToCart (medicine : Medicine.t) (s : State) :
  Forall undiscounted (cart s) -> Forall undiscounted (cart (addToCart medicine s)).
Proof.
  intros H. rewrite POSFacts.cart_addToCart.
  destruct (find _ (cart s)).
  - apply List.Forall_forall. intros line Hin.
    apply in_map_iff in Hin as (old & <- & Hin).
    apply (proj1 (List.Forall_forall _ _) H) in Hin.
    destruct (medicine_id old =? Medicine.id medicine)%Z; [| exact Hin].
    exact Hin.
  - apply Forall_app. split; [exact H |].
    constructor; [| constructor]. repeat split.
Qed.

Lemma undiscounted_quantity_update (medicineId : Z) (q : float) (s : State) :
  Forall undiscounted (cart s) ->
  Forall undiscounted
    (cart (updateCartItem medicineId (Partial.of_quantity q) s)).
Proof.
  intros H. unfold updateCartItem. simpl.
  apply List.Forall_forall. intros line Hin.
  apply in_map_iff in Hin as (old & <- & Hin).
  apply (proj1 (List.Forall_forall _ _) H) in Hin.
  destruct (medicine_id old =? medicineId)%Z; exact Hin.
Qed.

(** X1.  Through the page's own controls no line ever gets a discount or
    another price or identity than its medicine's: in every state reached by
    adding search results, the plus and minus buttons, removing lines,
    clearing the cart and changing the cart discount, each line has
    [discount_percent] 0, the [unit_price] and the [id] of its medicine; so
    every item of the sale request carries [discount_percent] 0. *)
Theorem lines_from_controls_carry_no_discount (s : State)
    (H : reachable from_controls s) :
  Forall undiscounted (cart s)
  /\ Forall (fun item => item_discount_percent item = 0)
       (items (saleData s)).
Proof.
  assert (Hlines : Forall undiscounted (cart s)).
  { induction H as [| a s Hallowed Hreach IH]; [constructor |].
    destruct a as [medicine | medicineId updates | medicineId | | parsed];
      cbn [act from_controls] in *.
    - apply undiscounted_addToCart, IH.
    - destruct Hallowed as [q ->]. apply undiscounted_quantity_update, IH.
    - apply List.Forall_forall. intros line Hin.
      apply filter_In in Hin as [Hin _].
      exact (proj1 (List.Forall_forall _ _) IH line Hin).
    - constructor.
    - exact IH. }
  split; [exact Hlines |].
  apply List.Forall_forall. intros item Hin.
  apply in_map_iff in Hin as (line & <- & Hin).
  apply (proj1 (List.Forall_forall _ _) Hlines) in Hin.
  apply Hin.
Qed.

Lemma lines_from_controls_carry_no_discount_witness :
  reachable from_controls
    (clickMinus (mkCartItem 2 Sample.ibuprofen 1 50 0 50) Sample.two_lines)
  /\ Forall (fun item => item_discount_percent item = 0)
       (items
          (saleData
             (clickMinus (mkCartItem 2 Sample.ibuprofen 1 50 0 50)
                Sample.two_lines))).
Proof.
  assert (R : reachable from_controls
                (clickMinus (mkCartItem 2 Sample.ibuprofen 1 50 0 50)
                   Sample.two_lines)).
  { apply (reachable_act _
             (UpdateCartItem 2 (Partial.of_quantity (Number.Math_max 1 (1 - 1)))));
      [eexists; reflexivity |].
    apply (reachable_act _ (AddToCart Sample.ibuprofen)); [exact I |].
    apply (reachable_act _ (AddToCart Sample.paracetamol)); [exact I |].
    apply reachable_initial. }
  split; [exact R | exact (proj2 (lines_from_controls_carry_no_discount _ R))].
Defined.

(** ** The cart discount *)

Lemma or_else_not_nan (parsed : float) : is_nan (Number.or_else parsed 0) = false.
Proof.
  unfold Number.or_else, Number.truthy.
  destruct (is_nan parsed) eqn:E; simpl; [reflexivity |].
  destruct (is_zero parsed); simpl; [reflexivity | exact E].
Qed.

Lemma discount_cart_action (a : Action) (s : State) :
  match a with
  | ClearCart | ChangeDiscount _ => True
  | _ => discount (act a s) = discount s
  end.
Proof.
  destruct a; simpl; try exact I; try reflexivity.
  unfold addToCart. destruct (find _ (cart s)); reflexivity.
Qed.

(** X2.  The cart discount is never [NaN], whatever is typed into its field
    and whatever else is done to the cart: the field stores
    [parseFloat(value) || 0], and [clearCart] stores 0. *)
Theorem discount_is_never_nan (s : State) (H : reachable any_action s) :
  is_nan (discount s) = false.
Proof.
  induction H as [| a s _ _ IH]; [reflexivity |].
  pose proof (discount_cart_action a s) as Hd.
  destruct a; cbn [act] in *; try (rewrite Hd; exact IH).
  - reflexivity.
  - apply or_else_not_nan.
Qed.

Lemma discount_is_never_nan_witness :
  reachable any_action (changeDiscount nan Sample.two_lines)
  /\ is_nan (discount (changeDiscount nan Sample.two_lines)) = false.
Proof.
  assert (R : reachable any_action (changeDiscount nan Sample.two_lines)).
  { apply (reachable_act _ (ChangeDiscount nan)); [exact I |].
    apply (reachable_act _ (AddToCart Sample.ibuprofen)); [exact I |].
    apply (reachable_act _ (AddToCart Sample.paracetamol)); [exact I |].
    apply reachable_initial. }
  split; [exact R | exact (discount_is_never_nan _ R)].
Defined.

(** ** Clearing the cart *)

(** X3.  [clearCart] empties the sale whatever state it is in: no line is
    left, the four totals are 0, the customer is detached and the payment
    method is cash again, "Complete Sale" is disabled and [processSale] would
    only alert "Cart is empty!".  It leaves the receipt number, the
    [processing] flag and the medicine search alone, and a second [clearCart]
    changes nothing more. *)
Theorem clearCart_resets_the_sale (s : State) :
  cart (clearCart s) = []
  /\ (subtotal (clearCart s) = 0 /\ discountAmount (clearCart s) = 0
      /\ taxAmount (clearCart s) = 0 /\ grandTotal (clearCart s) = 0)
  /\ (customerId (clearCart s) = None /\ paymentMethod (clearCart s) = cash)
  /\ completeSaleDisabled (clearCart s) = true
  /\ processSale (clearCart s) = (clearCart s, [Alert "Cart is empty!"])
  /\ (receiptNumber (clearCart s) = receiptNumber s
      /\ processing (clearCart s) = processing s
      /\ searchQuery (clearCart s) = searchQuery s
      /\ searchResults (clearCart s) = searchResults s)
  /\ clearCart (clearCart s) = clearCart s.
Proof.
  repeat split; unfold completeSaleDisabled; simpl; auto using orb_true_r.
Qed.

(** ** Removing and adding again *)

(** X4.  After [removeFromCart(id)] no line carries [id], and the lines that
    stay are the other lines in their old order.  Adding the medicine back
    does not restore the old line: it appends a fresh line of quantity 1 and
    no discount after them. *)
Theorem remove_then_add_starts_afresh (medicine : Medicine.t) (s : State) :
  (forall line,
      In line (cart (removeFromCart (Medicine.id medicine) s)) ->
      medicine_id line <> Medicine.id medicine /\ In line (cart s))
  /\ cart (addToCart medicine (removeFromCart (Medicine.id medicine) s))
     = List.filter
         (fun item => negb (medicine_id item =? Medicine.id medicine)%Z)
         (cart s)
       ++ [mkCartItem (Medicine.id medicine) medicine 1
             (Medicine.unit_price medicine) 0 (Medicine.unit_price medicine)].
Proof.
  split.
  - intros line Hin. unfold removeFromCart in Hin. simpl in Hin.
    apply filter_In in Hin as [Hin Hne].
    split; [| exact Hin].
    apply Z.eqb_neq, negb_true_iff, Hne.
  - rewrite POSFacts.cart_addToCart.
    rewrite POSFacts.find_absent; [reflexivity |].
    intros line Hin. unfold removeFromCart in Hin. simpl in Hin.
    apply filter_In in Hin as [_ Hne].
    apply negb_true_iff, Hne.
Qed.

Lemma remove_then_add_starts_afresh_witness :
  In (mkCartItem 2 Sample.ibuprofen 1 50 0 50)
    (cart (removeFromCart (Medicine.id Sample.paracetamol) Sample.two_lines))
  /\ (medicine_id (mkCartItem 2 Sample.ibuprofen 1 50 0 50)
      <> Medicine.id Sample.paracetamol
      /\ In (mkCartItem 2 Sample.ibuprofen 1 50 0 50) (cart Sample.two_lines)).
Proof.
  assert (Hin : In (mkCartItem 2 Sample.ibuprofen 1 50 0 50)
                  (cart (removeFromCart (Medicine.id Sample.paracetamol)
                           Sample.two_lines)))
    by (left; reflexivity).
  split; [exact Hin |].
  exact (proj1 (remove_then_add_starts_afresh Sample.paracetamol Sample.two_lines)
           _ Hin).
Defined.

(** ** After a successful sale *)

(** X5.  A sale that succeeds does not empty the cart: it records the receipt
    number, shows the success banner, and only schedules [clearCart] for five
    seconds later.  Until then "Complete Sale" is enabled again on the same
    lines, and pressing it posts the same sale a second time. *)
Theorem sold_cart_can_be_sold_again (s : State) (receipt_number : string)
    (H : cart s <> []) :
  processSale_settled (Http.Resolved receipt_number) (fst (processSale s))
  = (setProcessing false
       (setSuccess true (setReceiptNumber receipt_number (fst (processSale s)))),
     [SetTimeoutClearCart 5000])
  /\ cart (fst (processSale_settled (Http.Resolved receipt_number)
                  (fst (processSale s))))
     = cart s
  /\ completeSaleDisabled
       (fst (processSale_settled (Http.Resolved receipt_number)
               (fst (processSale s))))
     = false
  /\ snd (processSale
            (fst (processSale_settled (Http.Resolved receipt_number)
                    (fst (processSale s)))))
     = snd (processSale s).
Proof.
  unfold processSale, completeSaleDisabled.
  destruct (cart s) as [| line lines] eqn:Ecart; [contradiction |].
  simpl. rewrite Ecart. simpl.
  repeat split.
Qed.

Lemma sold_cart_can_be_sold_again_witness :
  cart Sample.one_line <> []
  /\ snd (processSale
            (fst (processSale_settled (Http.Resolved "R-0001")
                    (fst (processSale Sample.one_line)))))
     = snd (processSale Sample.one_line).
Proof.
  assert (H : cart Sample.one_line <> []) by discriminate.
  split; [exact H |].
  exact (proj2 (proj2 (proj2 (sold_cart_can_be_sold_again Sample.one_line
                               "R-0001" H)))).
Defined.

(** ** Searching *)

(** X6.  A medicine or customer query of fewer than two characters (UTF-16
    code units, as [query.length] counts them) sends no request: it only
    empties the list of results, and in particular leaves the cart and the
    [loading] flag as they are.  A query of two or more sends the request for
    that very text, and the medicine search sets [loading]. *)
Theorem short_query_sends_no_request (query : string) (v : View) :
  ((Text.length query < 2)%nat ->
   searchMedicines query v = (onPage (setSearchResults []) v, [])
   /\ cart (page (fst (searchMedicines query v))) = cart (page v)
   /\ loading (fst (searchMedicines query v)) = loading v
   /\ searchCustomers query v = (setCustomerSearchResults [] v, [])
   /\ page (fst (searchCustomers query v)) = page v)
  /\ ((2 <= Text.length query)%nat ->
      searchMedicines query v = (setLoading true v, [GetSearchMedicine query])
      /\ searchCustomers query v = (v, [GetSearchCustomer query])).
Proof.
  unfold searchMedicines, searchCustomers. split; intros H.
  - apply Nat.ltb_lt in H. rewrite H. repeat split.
  - apply Nat.ltb_ge in H. rewrite H. split; reflexivity.
Qed.

Lemma short_query_sends_no_request_witness :
  (Text.length Fixture.e_acute < 2)%nat
  /\ searchMedicines Fixture.e_acute Fixture.till
     = (onPage (setSearchResults []) Fixture.till, [])
  /\ (2 <= Text.length "pa")%nat
  /\ searchMedicines "pa" Fixture.till
     = (setLoading true Fixture.till, [GetSearchMedicine "pa"]).
Proof.
  assert (H1 : (Text.length Fixture.e_acute < 2)%nat)
    by (apply Nat.ltb_lt; reflexivity).
  assert (H2 : (2 <= Text.length "pa")%nat) by (apply Nat.leb_le; reflexivity).
  split; [exact H1 |].
  split; [exact (proj1 (proj1 (short_query_sends_no_request Fixture.e_acute
                                 Fixture.till) H1)) |].
  split; [exact H2 |].
  exact (proj1 (proj2 (short_query_sends_no_request "pa" Fixture.till) H2)).
Defined.



(** ** The customer of the sale *)


End POSMoreFacts.

(** * Further properties of the purchase-order page *)

Module PurchaseFormFacts.

Import Purchases.
#[local] Open Scope list_scope.

(** ** Opening the receive modal *)

Lemma fill_lookup_other (l : list PurchaseItem) (m : gmap Z Z) (k : Z) :
  ~ In k (map item_id l) ->
  fold_left (fun q item => <[item_id item := quantity item]> q) l m !! k = m !! k.
Proof.
  revert m. induction l as [| x l IH]; intros m Hk; simpl; [reflexivity |].
  rewrite IH.
  - apply lookup_insert_ne. intros E. apply Hk. left. exact E.
  - intros Hin. apply Hk. right. exact Hin.
Qed.

Lemma fill_lookup_item (l : list PurchaseItem) (m : gmap Z Z) (item : PurchaseItem) :
  List.NoDup (map item_id l) -> In item l ->
  fold_left (fun q item => <[item_id item := quantity item]> q) l m
  !! item_id item
  = Some (quantity item).
Proof.
  revert m. induction l as [| x l IH]; intros m Hnd Hin; [destruct Hin |].
  simpl in Hnd. apply List.NoDup_cons_iff in Hnd as [Hx Hnd].
  destruct Hin as [-> | Hin]; simpl.
  - rewrite fill_lookup_other by exact Hx. apply lookup_insert_eq.
  - apply IH; assumption.
Qed.

(** X9.  Opening the receive modal on an order whose items have distinct ids
    starts from the ordered quantities: the map holds, for every item of the
    order, its ordered quantity, and nothing else (what an earlier order left
    is gone).  Confirming at once sends exactly that map for the order, and
    when no ordered quantity is negative it is within range. *)
Theorem receive_modal_starts_from_ordered (purchase : Purchase) (s : State)
    (H : List.NoDup (map item_id (items purchase))) :
  (forall item,
      In item (items purchase) ->
      receiveQuantities (prepareReceivePurchase purchase s) !! item_id item
      = Some (quantity item))
  /\ (forall k : Z,
        ~ In k (map item_id (items purchase)) ->
        receiveQuantities (prepareReceivePurchase purchase s) !! k = None)
  /\ handleReceivePurchase (prepareReceivePurchase purchase s)
     = (prepareReceivePurchase purchase s,
        [PutReceive (id purchase)
           (receiveQuantities (prepareReceivePurchase purchase s))])
  /\ (Forall (fun item => 0 <= quantity item)%Z (items purchase) ->
      in_range purchase (receiveQuantities (prepareReceivePurchase purchase s))
      = true).
Proof.
  assert (Hitem : forall item,
             In item (items purchase) ->
             receiveQuantities (prepareReceivePurchase purchase s) !! item_id item
             = Some (quantity item)).
  { intros item Hin. unfold prepareReceivePurchase. simpl.
    apply fill_lookup_item; assumption. }
  split; [exact Hitem |]. split; [| split; [reflexivity |]].
  - intros k Hk. unfold prepareReceivePurchase. simpl.
    rewrite fill_lookup_other by exact Hk. apply lookup_empty.
  - intros Hpos. unfold in_range. apply forallb_forall. intros item Hin.
    rewrite (Hitem item Hin). simpl.
    apply (proj1 (List.Forall_forall _ _) Hpos) in Hin.
    apply andb_true_iff. split; [apply Z.leb_le; exact Hin | apply Z.leb_refl].
Qed.

Lemma receive_modal_starts_from_ordered_witness :
  List.NoDup (map item_id (items Sample.order_b))
  /\ In Sample.item2 (items Sample.order_b)
  /\ receiveQuantities (prepareReceivePurchase Sample.order_b Sample.listing)
     !! item_id Sample.item2
     = Some 5%Z.
Proof.
  assert (H : List.NoDup (map item_id (items Sample.order_b))).
  { repeat constructor; simpl; intuition discriminate. }
  assert (Hin : In Sample.item2 (items Sample.order_b))
    by (right; left; reflexivity).
  split; [exact H |]. split; [exact Hin |].
  exact (proj1 (receive_modal_starts_from_ordered Sample.order_b Sample.listing H)
           Sample.item2 Hin).
Defined.

(** ** Editing the received quantities *)

(** X10.  The received quantities depend only on the last value typed into
    each field, not on the order of the edits: typing again into a field
    replaces what it held, and edits of two different items commute. *)
Theorem received_edits_compose (a b : PurchaseItem) (x y : option Z) (s : State) :
  changeReceived a y (changeReceived a x s) = changeReceived a y s
  /\ (item_id a <> item_id b ->
      changeReceived a x (changeReceived b y s)
      = changeReceived b y (changeReceived a x s)).
Proof.
  unfold changeReceived, setReceiveQuantities. simpl. split.
  - rewrite insert_insert_eq. reflexivity.
  - intros Hne. f_equal. apply insert_insert_ne. congruence.
Qed.

Lemma received_edits_compose_witness :
  item_id Sample.item1 <> item_id Sample.item2
  /\ changeReceived Sample.item1 (Some 7%Z)
       (changeReceived Sample.item2 (Some 2%Z) Sample.listing)
     = changeReceived Sample.item2 (Some 2%Z)
         (changeReceived Sample.item1 (Some 7%Z) Sample.listing).
Proof.
  assert (H : item_id Sample.item1 <> item_id Sample.item2) by discriminate.
  split; [exact H |].
  exact (proj2 (received_edits_compose Sample.item1 Sample.item2 (Some 7%Z)
                  (Some 2%Z) Sample.listing) H).
Defined.

(** X11.  The "Received Quantity" field does not always show what will be
    sent.  After an edit the map holds [parseInt(value) || 0] for the item,
    while the field shows that number only when it is not 0: for 0, and for
    text that is no number, the field shows the ordered quantity again and 0
    is what "Confirm Receipt" sends. *)
Theorem received_field_hides_zero (item : PurchaseItem) (parsed : option Z)
    (s : State) :
  receiveQuantities (changeReceived item parsed s) !! item_id item
  = Some (default 0%Z parsed)
  /\ PurchaseForm.receivedFieldValue item (changeReceived item parsed s)
     = (if (default 0 parsed =? 0)%Z then quantity item else default 0%Z parsed).
Proof.
  unfold PurchaseForm.receivedFieldValue, changeReceived. simpl.
  rewrite lookup_insert_eq. split; reflexivity.
Qed.

(** ** The filters *)

(** X12.  Only the status and the supplier filter reach the request for the
    list: the search text and the date filter change nothing in it.  "Clear"
    resets all four filters, but the request it sends is the one "Apply
    Filters" would have sent before the click, so with a filter set the list
    that comes back is still filtered while the controls show "all". *)
Theorem clear_fetches_with_old_filters (s : PurchaseForm.State) :
  (forall (text : string) (date : PurchaseForm.DateFilter),
      snd (PurchaseForm.handleSearch
             (PurchaseForm.setFilters text (PurchaseForm.statusFilter s)
                (PurchaseForm.supplierFilter s) date s))
      = snd (PurchaseForm.handleSearch s))
  /\ snd (PurchaseForm.clearFilters s) = snd (PurchaseForm.handleSearch s)
  /\ (PurchaseForm.searchQuery (fst (PurchaseForm.clearFilters s)) = ""
      /\ PurchaseForm.statusFilter (fst (PurchaseForm.clearFilters s)) = None
      /\ PurchaseForm.supplierFilter (fst (PurchaseForm.clearFilters s)) = None
      /\ PurchaseForm.dateFilter (fst (PurchaseForm.clearFilters s))
         = PurchaseForm.all_dates)
  /\ (PurchaseForm.statusFilter s <> None
      \/ PurchaseForm.supplierFilter s <> None ->
      snd (PurchaseForm.clearFilters s)
      <> snd (PurchaseForm.handleSearch (fst (PurchaseForm.clearFilters s)))).
Proof.
  split; [reflexivity |]. split; [reflexivity |].
  split; [repeat split |].
  intros H E. simpl in E.
  injection E as E1 E2. destruct H as [H | H]; [apply H, E1 | apply H, E2].
Qed.

Lemma clear_fetches_with_old_filters_witness :
  (PurchaseForm.statusFilter Fixture.form <> None
   \/ PurchaseForm.supplierFilter Fixture.form <> None)
  /\ snd (PurchaseForm.clearFilters Fixture.form)
     = [PurchaseForm.GetPurchases
          (PurchaseForm.mkParams (Some pending) (Some 3%Z))]
  /\ snd (PurchaseForm.clearFilters Fixture.form)
     <> snd (PurchaseForm.handleSearch (fst (PurchaseForm.clearFilters Fixture.form))).
Proof.
  assert (H : PurchaseForm.statusFilter Fixture.form <> None
              \/ PurchaseForm.supplierFilter Fixture.form <> None)
    by (left; discriminate).
  split; [exact H |]. split; [reflexivity |].
  exact (proj2 (proj2 (proj2 (clear_fetches_with_old_filters Fixture.form))) H).
Defined.

(** ** Removing a row of the form *)

Lemma filter_index_keeps_later (A : Type) (l : list A) (index start : nat) :
  (index < start)%nat ->
  PurchaseForm.filter_index (fun i => negb (i =? index)%nat) start l = l.
Proof.
  revert start. induction l as [| x l IH]; intros start Hlt; simpl;
    [reflexivity |].
  replace (start =? index)%nat with false by (symmetry; apply Nat.eqb_neq; lia).
  simpl. f_equal. apply IH. lia.
Qed.

Lemma filter_index_skips (A : Type) (l : list A) (start index : nat) :
  PurchaseForm.filter_index (fun i => negb (i =? start + index)%nat) start l
  = firstn index l ++ skipn (S index) l.
Proof.
  revert start index. induction l as [| x l IH]; intros start index; simpl.
  - destruct index; reflexivity.
  - destruct index as [| index].
    + rewrite Nat.add_0_r, Nat.eqb_refl. simpl.
      apply filter_index_keeps_later. lia.
    + replace (start =? start + S index)%nat with false
        by (symmetry; apply Nat.eqb_neq; lia).
      simpl. f_equal.
      replace (start + S index)%nat with (S start + index)%nat by lia.
      apply IH.
Qed.

Lemma setNewPurchase_same (s : PurchaseForm.State) :
  PurchaseForm.setNewPurchase
    (PurchaseForm.mkNewPurchase
       (PurchaseForm.supplier_id (PurchaseForm.newPurchase s))
       (PurchaseForm.expected_delivery (PurchaseForm.newPurchase s))
       (PurchaseForm.notes (PurchaseForm.newPurchase s))
       (PurchaseForm.items (PurchaseForm.newPurchase s)))
    s
  = s.
Proof. destruct s as [? ? ? ? ? ? ? [] ?]. reflexivity. Qed.

(** X13.  The bin of a row of the form removes the row at that index and no
    other: the rows before it keep their place and the rows after it move up
    by one.  An index past the last row changes nothing, and the supplier,
    the delivery date, the notes and the fields of the row being typed are
    never touched. *)
Theorem remove_row_by_index (index : nat) (s : PurchaseForm.State) :
  PurchaseForm.items (PurchaseForm.newPurchase (PurchaseForm.handleRemoveItem index s))
  = firstn index (PurchaseForm.items (PurchaseForm.newPurchase s))
    ++ skipn (S index) (PurchaseForm.items (PurchaseForm.newPurchase s))
  /\ ((index < length (PurchaseForm.items (PurchaseForm.newPurchase s)))%nat ->
      S (length (PurchaseForm.items
                   (PurchaseForm.newPurchase (PurchaseForm.handleRemoveItem index s))))
      = length (PurchaseForm.items (PurchaseForm.newPurchase s)))
  /\ ((length (PurchaseForm.items (PurchaseForm.newPurchase s)) <= index)%nat ->
      PurchaseForm.handleRemoveItem index s = s)
  /\ (PurchaseForm.supplier_id
        (PurchaseForm.newPurchase (PurchaseForm.handleRemoveItem index s))
      = PurchaseForm.supplier_id (PurchaseForm.newPurchase s)
      /\ PurchaseForm.expected_delivery
           (PurchaseForm.newPurchase (PurchaseForm.handleRemoveItem index s))
         = PurchaseForm.expected_delivery (PurchaseForm.newPurchase s)
      /\ PurchaseForm.notes
           (PurchaseForm.newPurchase (PurchaseForm.handleRemoveItem index s))
         = PurchaseForm.notes (PurchaseForm.newPurchase s)
      /\ PurchaseForm.newItem (PurchaseForm.handleRemoveItem index s)
         = PurchaseForm.newItem s).
Proof.
  assert (E : PurchaseForm.items
                (PurchaseForm.newPurchase (PurchaseForm.handleRemoveItem index s))
              = firstn index (PurchaseForm.items (PurchaseForm.newPurchase s))
                ++ skipn (S index)
                     (PurchaseForm.items (PurchaseForm.newPurchase s))).
  { unfold PurchaseForm.handleRemoveItem. simpl.
    apply (filter_index_skips _ _ 0 index). }
  split; [exact E |]. split; [| split; [| repeat split]].
  - intros Hlt. rewrite E, length_app, length_firstn, length_skipn. lia.
  - intros Hge. unfold PurchaseForm.handleRemoveItem.
    rewrite (filter_index_skips _ _ 0 index).
    rewrite firstn_all2 by exact Hge.
    rewrite skipn_all2 by lia.
    rewrite app_nil_r. apply setNewPurchase_same.
Qed.

Lemma remove_row_by_index_witness :
  (length (PurchaseForm.items (PurchaseForm.newPurchase Fixture.form)) <= 1)%nat
  /\ PurchaseForm.handleRemoveItem 1 Fixture.form = Fixture.form
  /\ (0 < length (PurchaseForm.items (PurchaseForm.newPurchase Fixture.form)))%nat
  /\ S (length (PurchaseForm.items
                  (PurchaseForm.newPurchase
                     (PurchaseForm.handleRemoveItem 0 Fixture.form))))
     = 1%nat.
Proof.
  assert (Hge : (length (PurchaseForm.items (PurchaseForm.newPurchase Fixture.form))
                 <= 1)%nat) by (simpl; lia).
  assert (Hlt : (0 < length (PurchaseForm.items
                              (PurchaseForm.newPurchase Fixture.form)))%nat)
    by (simpl; lia).
  split; [exact Hge |].
  split; [exact (proj1 (proj2 (proj2 (remove_row_by_index 1 Fixture.form))) Hge) |].
  split; [exact Hlt |].
  exact (proj1 (proj2 (remove_row_by_index 0 Fixture.form)) Hlt).
Defined.

(** ** Entering and sending a new order *)

Section WithParsers.

Variable parseFloat : string -> float.
Variable parseInt : string -> option Z.

Lemma newItem_eta (item : PurchaseForm.NewItem) :
  PurchaseForm.mkNewItem (PurchaseForm.medicine_id item)
    (PurchaseForm.quantity item) (PurchaseForm.unit_cost item)
    (PurchaseForm.expiry_date item) (PurchaseForm.batch_number item)
  = item.
Proof. destruct item. reflexivity. Qed.

Lemma blank_false (text : string) : PurchaseForm.blank text = false <-> text <> "".
Proof. unfold PurchaseForm.blank. apply String.eqb_neq. Qed.

(** X14.  "Add" on a row of the form has three outcomes.  With the medicine,
    the quantity or the unit cost left empty it alerts and changes nothing.
    With all three filled in but a medicine id that matches no medicine of the
    list it does nothing at all, without a message.  Otherwise it appends the
    row, texts as typed (the quantity and the cost are not read as numbers),
    after the rows already there, and resets the fields to a blank row of
    quantity "1"; it never sends a request. *)
Theorem add_row_outcomes (s : PurchaseForm.State) :
  (PurchaseForm.medicine_id (PurchaseForm.newItem s) = ""
   \/ PurchaseForm.quantity (PurchaseForm.newItem s) = ""
   \/ PurchaseForm.unit_cost (PurchaseForm.newItem s) = "" ->
   PurchaseForm.handleAddItem parseInt s
   = (s, [PurchaseForm.Alert "Please fill in all required item fields"]))
  /\ (PurchaseForm.medicine_id (PurchaseForm.newItem s) <> "" ->
      PurchaseForm.quantity (PurchaseForm.newItem s) <> "" ->
      PurchaseForm.unit_cost (PurchaseForm.newItem s) <> "" ->
      ((forall m, In m (PurchaseForm.medicines s) ->
          parseInt (PurchaseForm.medicine_id (PurchaseForm.newItem s))
          <> Some (PurchaseForm.Medicine.id m)) ->
       PurchaseForm.handleAddItem parseInt s = (s, []))
      /\ ((exists m, In m (PurchaseForm.medicines s)
             /\ parseInt (PurchaseForm.medicine_id (PurchaseForm.newItem s))
                = Some (PurchaseForm.Medicine.id m)) ->
          snd (PurchaseForm.handleAddItem parseInt s) = []
          /\ PurchaseForm.items
               (PurchaseForm.newPurchase (fst (PurchaseForm.handleAddItem parseInt s)))
             = PurchaseForm.items (PurchaseForm.newPurchase s)
               ++ [PurchaseForm.newItem s]
          /\ PurchaseForm.newItem (fst (PurchaseForm.handleAddItem parseInt s))
             = PurchaseForm.blankItem
          /\ PurchaseForm.supplier_id
               (PurchaseForm.newPurchase (fst (PurchaseForm.handleAddItem parseInt s)))
             = PurchaseForm.supplier_id (PurchaseForm.newPurchase s))).
Proof.
  split.
  - intros H. unfold PurchaseForm.handleAddItem, PurchaseForm.blank.
    destruct H as [-> | [-> | ->]]; simpl;
      rewrite ?orb_true_r; reflexivity.
  - intros Hm Hq Hc. unfold PurchaseForm.handleAddItem.
    rewrite (proj2 (blank_false _) Hm), (proj2 (blank_false _) Hq),
      (proj2 (blank_false _) Hc).
    simpl. split.
    + intros Hnone. rewrite POSFacts.find_absent; [reflexivity |].
      intros m Hin. specialize (Hnone m Hin).
      destruct (parseInt _) as [n |]; [| reflexivity].
      apply Z.eqb_neq. congruence.
    + intros (m & Hin & Hparse).
      destruct (find _ (PurchaseForm.medicines s)) as [found |] eqn:Efind.
      * simpl. rewrite newItem_eta. repeat split.
      * apply (find_none _ _ Efind) in Hin. simpl in Hin.
        rewrite Hparse, Z.eqb_refl in Hin. discriminate.
Qed.

(** X15.  "Create Purchase Order" sends nothing while no supplier is chosen
    or no row has been entered: it only alerts.  Otherwise it sends one
    request, with one item per row of the form, in order.  When the request
    succeeds the modal closes, the form and the row fields are blank again and
    the list is fetched anew, with the status and supplier filters as they
    were when "Create" was clicked, whatever they have become since; the
    filters themselves are left as they are.  When it fails the alert shows
    the server's detail and the state, everything typed included, is left
    untouched. *)
Theorem create_order_outcomes (s now : PurchaseForm.State) :
  (PurchaseForm.supplier_id (PurchaseForm.newPurchase s) = ""
   \/ PurchaseForm.items (PurchaseForm.newPurchase s) = [] ->
   PurchaseForm.handleCreatePurchase parseFloat parseInt s
   = (s, [PurchaseForm.Alert "Please select a supplier and add at least one item"]))
  /\ (PurchaseForm.supplier_id (PurchaseForm.newPurchase s) <> "" ->
      PurchaseForm.items (PurchaseForm.newPurchase s) <> [] ->
      PurchaseForm.handleCreatePurchase parseFloat parseInt s
      = (s, [PurchaseForm.PostCreatePurchase
               (PurchaseForm.purchaseData parseFloat parseInt s)])
      /\ length (PurchaseForm.Payload.items
                   (PurchaseForm.purchaseData parseFloat parseInt s))
         = length (PurchaseForm.items (PurchaseForm.newPurchase s)))
  /\ (PurchaseForm.handleCreatePurchase_settled (Http.Resolved tt) s now
      = (PurchaseForm.setLoading true
           (PurchaseForm.resetNewPurchase (PurchaseForm.setShowAddModal false now)),
         [PurchaseForm.GetPurchases
            (PurchaseForm.mkParams (PurchaseForm.statusFilter s)
               (PurchaseForm.supplierFilter s));
          PurchaseForm.Alert "Purchase order created successfully!"])
      /\ PurchaseForm.showAddModal
           (fst (PurchaseForm.handleCreatePurchase_settled (Http.Resolved tt) s now))
         = false
      /\ PurchaseForm.newPurchase
           (fst (PurchaseForm.handleCreatePurchase_settled (Http.Resolved tt) s now))
         = PurchaseForm.blankPurchase
      /\ PurchaseForm.newItem
           (fst (PurchaseForm.handleCreatePurchase_settled (Http.Resolved tt) s now))
         = PurchaseForm.blankItem
      /\ PurchaseForm.statusFilter
           (fst (PurchaseForm.handleCreatePurchase_settled (Http.Resolved tt) s now))
         = PurchaseForm.statusFilter now
      /\ PurchaseForm.supplierFilter
           (fst (PurchaseForm.handleCreatePurchase_settled (Http.Resolved tt) s now))
         = PurchaseForm.supplierFilter now)
  /\ (forall detail : option string,
        PurchaseForm.handleCreatePurchase_settled (Http.Rejected detail) s now
        = (now, [PurchaseForm.Alert
                   (Http.detail_or detail "Failed to create purchase order")])).
Proof.
  split; [| split; [| split]].
  - intros H. unfold PurchaseForm.handleCreatePurchase, PurchaseForm.blank.
    destruct H as [-> | ->]; simpl; rewrite ?orb_true_r; reflexivity.
  - intros Hs Hi. unfold PurchaseForm.handleCreatePurchase.
    rewrite (proj2 (blank_false _) Hs).
    destruct (PurchaseForm.items (PurchaseForm.newPurchase s)) eqn:E;
      [contradiction |].
    simpl. split; [reflexivity |].
    rewrite E. simpl. rewrite length_map. reflexivity.
  - repeat split.
  - reflexivity.
Qed.

(** X16.  [toNumber] turns everything that is not already a number into a
    number that is not [NaN]: [null], [undefined] and other values give 0, a
    text gives what [parseFloat] reads in it, or 0 when that is [NaN].  A value
    that is a number is returned as it is, [NaN] included. *)
Theorem toNumber_is_a_number (value : PurchaseForm.JsValue) :
  (forall x, PurchaseForm.toNumber parseFloat (PurchaseForm.JsNumber x) = x)
  /\ ((forall x, value <> PurchaseForm.JsNumber x) ->
      is_nan (PurchaseForm.toNumber parseFloat value) = false)
  /\ (forall text,
        PurchaseForm.toNumber parseFloat (PurchaseForm.JsString text)
        = (if is_nan (parseFloat text) then 0%float else parseFloat text)).
Proof.
  split; [reflexivity |]. split; [| reflexivity].
  intros Hnot. destruct value as [| | x | text |]; simpl; try reflexivity.
  - exfalso. exact (Hnot x eq_refl).
  - destruct (is_nan (parseFloat text)) eqn:E; [reflexivity | exact E].
Qed.

(** ** The statistics cards *)

Lemma offers_receive (p : Purchase) :
  status_eqb (status p) pending || status_eqb (status p) ordered
  = existsb (PurchaseForm.control_eqb ReceiveOrder) (rowControls p).
Proof. unfold rowControls. destruct (status p); reflexivity. Qed.

(** X17.  The "Pending Orders" card counts exactly the orders whose row
    offers "Receive Order", that is the [pending] and the [ordered] ones, and
    so never more than "Total Purchases", which is the length of the list.
    With no order at all every card is 0: the average is not computed as 0/0. *)
Theorem stats_cards (purchases : list Purchase) :
  PurchaseForm.total_purchases (PurchaseForm.calculateStats parseFloat purchases)
  = length purchases
  /\ PurchaseForm.pending_orders (PurchaseForm.calculateStats parseFloat purchases)
     = length
         (List.filter
            (fun p => existsb (PurchaseForm.control_eqb ReceiveOrder) (rowControls p))
            purchases)
  /\ (PurchaseForm.pending_orders (PurchaseForm.calculateStats parseFloat purchases)
      <= PurchaseForm.total_purchases
           (PurchaseForm.calculateStats parseFloat purchases))%nat
  /\ PurchaseForm.calculateStats parseFloat [] = PurchaseForm.mkStats 0 0 0 0.
Proof.
  split; [reflexivity |]. split; [| split; [| reflexivity]].
  - unfold PurchaseForm.calculateStats. simpl. f_equal.
    apply filter_ext. intros p. apply offers_receive.
  - unfold PurchaseForm.calculateStats. simpl. apply filter_length_le.
Qed.

End WithParsers.

Lemma add_row_outcomes_witness :
  (exists m, In m (PurchaseForm.medicines Fixture.form)
     /\ Fixture.parseInt (PurchaseForm.medicine_id (PurchaseForm.newItem Fixture.form))
        = Some (PurchaseForm.Medicine.id m))
  /\ PurchaseForm.items
       (PurchaseForm.newPurchase
          (fst (PurchaseForm.handleAddItem Fixture.parseInt Fixture.form)))
     = [PurchaseForm.mkNewItem "4" "10" "4" "" "";
        PurchaseForm.mkNewItem "4" "5" "9" "" "B-17"].
Proof.
  assert (H : exists m, In m (PurchaseForm.medicines Fixture.form)
                /\ Fixture.parseInt
                     (PurchaseForm.medicine_id (PurchaseForm.newItem Fixture.form))
                   = Some (PurchaseForm.Medicine.id m))
    by (exists Fixture.amoxicillin; split; [left; reflexivity | reflexivity]).
  split; [exact H |].
  refine (proj1 (proj2 (proj2 (proj2 (add_row_outcomes Fixture.parseInt Fixture.form)
                                 _ _ _) H)));
    discriminate.
Defined.

Lemma create_order_outcomes_witness :
  PurchaseForm.supplier_id (PurchaseForm.newPurchase Fixture.form) <> ""
  /\ PurchaseForm.items (PurchaseForm.newPurchase Fixture.form) <> []
  /\ length
       (PurchaseForm.Payload.items
          (PurchaseForm.purchaseData Fixture.parseFloat Fixture.parseInt
             Fixture.form))
     = 1%nat
  /\ snd (PurchaseForm.handleCreatePurchase_settled (Http.Resolved tt)
            Fixture.form
            (PurchaseForm.setFilters "" (Some received) None
               PurchaseForm.all_dates Fixture.form))
     = [PurchaseForm.GetPurchases (PurchaseForm.mkParams (Some pending) (Some 3%Z));
        PurchaseForm.Alert "Purchase order created successfully!"].
Proof.
  assert (Hs : PurchaseForm.supplier_id (PurchaseForm.newPurchase Fixture.form) <> "")
    by discriminate.
  assert (Hi : PurchaseForm.items (PurchaseForm.newPurchase Fixture.form) <> [])
    by discriminate.
  split; [exact Hs |]. split; [exact Hi |].
  split;
    [exact (proj2 (proj1 (proj2 (create_order_outcomes Fixture.parseFloat
                                   Fixture.parseInt Fixture.form Fixture.form))
                     Hs Hi)) |].
  exact (f_equal snd
           (proj1 (proj1 (proj2 (proj2
              (create_order_outcomes Fixture.parseFloat Fixture.parseInt
                 Fixture.form
                 (PurchaseForm.setFilters "" (Some received) None
                    PurchaseForm.all_dates Fixture.form))))))).
Defined.

Lemma toNumber_is_a_number_witness :
  (forall x, PurchaseForm.JsString "abc" <> PurchaseForm.JsNumber x)
  /\ is_nan (PurchaseForm.toNumber Fixture.parseFloat (PurchaseForm.JsString "abc"))
     = false.
Proof.
  assert (H : forall x, PurchaseForm.JsString "abc" <> PurchaseForm.JsNumber x)
    by discriminate.
  split; [exact H |].
  exact (proj1 (proj2 (toNumber_is_a_number Fixture.parseFloat
                         (PurchaseForm.JsString "abc")))
           H).
Defined.

End PurchaseFormFacts.

(** * Properties of the session helpers *)

Module AuthFacts.

Import Auth.

(** X18.  In the browser [setAuthToken] writes the token under
    [access_token] and changes no other key of the storage; the token is read
    back as it was stored, and every request then carries it as
    [Authorization: Bearer <token>], unless the token is the empty text: then
    the session does not count as authenticated and the headers are left
    alone.  Without a [window] nothing is stored and nothing is read. *)
Theorem token_round_trip (token : string) (localStorage headers : gmap string string) :
  (exists stored : gmap string string,
      setAuthToken token (Some localStorage) = Some stored
      /\ stored !! "access_token" = Some token
      /\ forall key : string,
           key <> "access_token" -> stored !! key = localStorage !! key)
  /\ getToken (setAuthToken token (Some localStorage)) = Some token
  /\ isAuthenticated (setAuthToken token (Some localStorage))
     = negb (String.eqb token "")
  /\ onRequest (setAuthToken token (Some localStorage)) headers
     = (if String.eqb token "" then headers
        else <["Authorization" := String.append "Bearer " token]> headers)
  /\ (setAuthToken token None = None /\ getToken None = None
      /\ isAuthenticated None = false /\ onRequest None headers = headers).
Proof.
  split; [| split; [apply lookup_insert_eq |]; split; [| split]].
  - eexists. split; [reflexivity |]. split; [apply lookup_insert_eq |].
    intros key Hkey. apply lookup_insert_ne. congruence.
  - unfold isAuthenticated, getToken, setAuthToken.
    rewrite lookup_insert_eq. reflexivity.
  - unfold onRequest, setAuthToken. rewrite lookup_insert_eq. simpl.
    destruct (String.eqb token ""); reflexivity.
  - repeat split.
Qed.

Lemma not_401 (status : option Z) (window : Window) :
  status <> Some 401%Z -> onResponseError status window = (window, None).
Proof.
  intros H. destruct status as [z |]; [| reflexivity].
  destruct (Z.eq_dec z 401) as [-> | Hz]; [contradiction |].
  unfold onResponseError.
  repeat match goal with
         | |- context [match ?p with _ => _ end] =>
             is_var p; destruct p; try reflexivity; try contradiction
         end.
Qed.

(** X19.  An answer with status 401 signs the browser out: the interceptor
    leaves the storage [clearAuth] leaves, without [access_token] and without
    [user] and with every other key as it was, and sends the browser to
    [/login]; afterwards no token is read, the session is not authenticated
    and the request interceptor adds no header.  Without a [window] nothing
    is removed and nothing is navigated to.  An error with another status, or
    with none, changes nothing. *)
Theorem unauthorized_signs_out (localStorage headers : gmap string string) :
  (exists stored : gmap string string,
      onResponseError (Some 401%Z) (Some localStorage)
      = (Some stored, Some "/login")
      /\ clearAuth (Some localStorage) = Some stored
      /\ stored !! "access_token" = None
      /\ stored !! "user" = None
      /\ forall key : string,
           key <> "access_token" -> key <> "user" ->
           stored !! key = localStorage !! key)
  /\ getToken (clearAuth (Some localStorage)) = None
  /\ isAuthenticated (clearAuth (Some localStorage)) = false
  /\ onRequest (clearAuth (Some localStorage)) headers = headers
  /\ (clearAuth None = None
      /\ onResponseError (Some 401%Z) None = (None, None))
  /\ (forall (status : option Z) (window : Window),
        status <> Some 401%Z -> onResponseError status window = (window, None)).
Proof.
  assert (Hgone : delete "user" (delete "access_token" localStorage)
                  !! "access_token" = None).
  { rewrite lookup_delete_ne by discriminate. apply lookup_delete_eq. }
  split; [| split; [exact Hgone |]; split; [| split; [| split]]].
  - eexists. split; [reflexivity |]. split; [reflexivity |].
    split; [exact Hgone |]. split; [apply lookup_delete_eq |].
    intros key H1 H2.
    rewrite lookup_delete_ne by congruence. apply lookup_delete_ne. congruence.
  - unfold isAuthenticated, getToken, clearAuth. rewrite Hgone. reflexivity.
  - unfold onRequest, clearAuth. rewrite Hgone. reflexivity.
  - split; reflexivity.
  - apply not_401.
Qed.

Lemma unauthorized_signs_out_witness :
  Some 500%Z <> Some 401%Z
  /\ onResponseError (Some 500%Z) Fixture.tab = (Fixture.tab, None)
  /\ exists stored : gmap string string,
       onResponseError (Some 401%Z)
         (setAuthToken "t0k3n" Fixture.tab)
       = (Some stored, Some "/login")
       /\ stored !! "access_token" = None
       /\ stored !! "theme" = Some "dark".
Proof.
  assert (H : Some 500%Z <> Some 401%Z) by discriminate.
  assert (H1 : "theme" <> "access_token") by discriminate.
  assert (H2 : "theme" <> "user") by discriminate.
  split; [exact H |].
  split; [exact (proj2 (proj2 (proj2 (proj2 (proj2
                   (unauthorized_signs_out ∅ ∅)))))
                   (Some 500%Z) Fixture.tab H) |].
  destruct (proj1 (unauthorized_signs_out
                     (<["access_token" := "t0k3n"]> {["theme" := "dark"]}) ∅))
    as (stored & Hout & _ & Htoken & _ & Hkeep).
  exists stored. split; [exact Hout |]. split; [exact Htoken |].
  rewrite (Hkeep "theme" H1 H2). reflexivity.
Defined.

Lemma token_round_trip_witness :
  "theme" <> "access_token"
  /\ exists stored : gmap string string,
       setAuthToken "t0k3n" Fixture.tab = Some stored
       /\ stored !! "access_token" = Some "t0k3n"
       /\ stored !! "theme" = Some "dark".
Proof.
  assert (H : "theme" <> "access_token") by discriminate.
  split; [exact H |].
  destruct (proj1 (token_round_trip "t0k3n" {["theme" := "dark"]} ∅))
    as (stored & Hset & Htoken & Hkeep).
  exists stored. split; [exact Hset |]. split; [exact Htoken |].
  rewrite (Hkeep "theme" H). reflexivity.
Defined.

End AuthFacts.
